(** * EntityClassGenerator: a shallow embedding of [entity_generator.py]

    The generator reads a MySQL catalog and prints one C# entity class per
    table.  This development embeds the type mapper, the class renderer, the
    catalog-row reader, the configuration checks and the orchestrating run,
    and proves the properties stated about them.

    Conventions of the embedding:
    - Python [str] is [string]; the text the program handles (SQL type names,
      identifiers, configuration keys) is ASCII, and the casing functions
      below are those of Python restricted to ASCII text ([isascii]).
    - Python [int] is [Z]; [Optional[int]] is [option Z].
    - The [configparser.ConfigParser] object is represented by what its
      accessors return: for each section, the options visible through the
      section proxy, with their values as [config[section][key]] yields them.
    - Exceptions are values of [exn]; effects (printing, connecting, writing
      files) are recorded in a trace of [event]s. *)

From Stdlib Require Import ZArith Ascii String DecimalString DecimalPos.
From stdpp Require Import gmap strings list.

Local Open Scope Z_scope.

(** ** Python string methods *)

Module Py.

Definition ord (c : ascii) : N := N_of_ascii c.

Definition is_upper (c : ascii) : bool := ((65 <=? ord c) && (ord c <=? 90))%N.
Definition is_lower (c : ascii) : bool := ((97 <=? ord c) && (ord c <=? 122))%N.
Definition is_digit (c : ascii) : bool := ((48 <=? ord c) && (ord c <=? 57))%N.

(** [_PyUnicode_IsCased] on ASCII: the letters. *)
Definition is_cased (c : ascii) : bool := is_upper c || is_lower c.

Definition to_lower (c : ascii) : ascii :=
  if is_upper c then ascii_of_N (ord c + 32) else c.
Definition to_upper (c : ascii) : ascii :=
  if is_lower c then ascii_of_N (ord c - 32) else c.

(** [str.isascii()] *)
Fixpoint isascii (s : string) : bool :=
  match s with
  | EmptyString => true
  | String c r => (ord c <? 128)%N && isascii r
  end.

(** [str.lower()] *)
Fixpoint lower (s : string) : string :=
  match s with
  | EmptyString => EmptyString
  | String c r => String (to_lower c) (lower r)
  end.

(** [str.title()]: CPython's [do_title] keeps one flag, whether the previous
    character was cased; a character after a cased one is lowered, any other
    is title-cased (upper-cased, on ASCII). *)
Fixpoint do_title (previous_is_cased : bool) (s : string) : string :=
  match s with
  | EmptyString => EmptyString
  | String c r =>
      String (if previous_is_cased then to_lower c else to_upper c)
             (do_title (is_cased c) r)
  end.

Definition title (s : string) : string := do_title false s.

(** [str.split(sep)] for a one-character separator: never returns [[]]. *)
Fixpoint split (sep : ascii) (s : string) : list string :=
  match s with
  | EmptyString => [EmptyString]
  | String c r =>
      if Ascii.eqb c sep then EmptyString :: split sep r
      else match split sep r with
           | w :: ws => String c w :: ws
           | [] => [String c EmptyString]
           end
  end.

(** [sep.join(parts)] *)
Definition join (sep : string) (parts : list string) : string :=
  String.concat sep parts.

(** [sub in s] *)
Fixpoint contains (sub s : string) : bool :=
  String.prefix sub s ||
  match s with
  | EmptyString => false
  | String _ r => contains sub r
  end.

(** [c in s] for one character *)
Fixpoint has_char (c : ascii) (s : string) : bool :=
  match s with
  | EmptyString => false
  | String d r => Ascii.eqb d c || has_char c r
  end.

(** [s.count(c)] for one character *)
Fixpoint count_char (c : ascii) (s : string) : nat :=
  match s with
  | EmptyString => O
  | String d r => ((if Ascii.eqb d c then 1 else 0) + count_char c r)%nat
  end.

(** [str(n)] for an [int] *)
Definition str_of_int (n : Z) : string := NilZero.string_of_int (Z.to_int n).

(** [int(digits)] for a non-empty run of ASCII digits *)
Definition int_of_digits (ds : string) : Z :=
  fold_left (fun acc c => 10 * acc + Z.of_N (ord c - 48))
            (list_ascii_of_string ds) 0.

(** The longest prefix of digits, and what follows it. *)
Fixpoint span_digits (s : string) : string * string :=
  match s with
  | String c r =>
      if is_digit c then let '(ds, rest) := span_digits r in (String c ds, rest)
      else (EmptyString, s)
  | EmptyString => (EmptyString, EmptyString)
  end.

(** Drop a known prefix; [None] when [s] does not start with it. *)
Fixpoint strip_prefix (p s : string) : option string :=
  match p, s with
  | EmptyString, _ => Some s
  | String a p', String b s' => if Ascii.eqb a b then strip_prefix p' s' else None
  | String _ _, EmptyString => None
  end.

(** [re.search(lit + r'\((\d+)\)', s)], group 1: the leftmost place where
    [lit] is followed by an opening parenthesis, one or more digits and a
    closing parenthesis.  The digit run is greedy and the character after it
    must be the parenthesis, so at each place there is at most one match. *)
Definition match_width_here (lit s : string) : option string :=
  match strip_prefix (lit +:+ "(") s with
  | Some rest =>
      match span_digits rest with
      | (String d ds, String ")" _) => Some (String d ds)
      | _ => None
      end
  | None => None
  end.

Fixpoint search_width (lit s : string) : option string :=
  match match_width_here lit s with
  | Some g => Some g
  | None => match s with
            | EmptyString => None
            | String _ r => search_width lit r
            end
  end.

(** [sorted(xs)] on strings: insertion into code-point order. *)
Fixpoint insert_sorted (x : string) (xs : list string) : list string :=
  match xs with
  | [] => [x]
  | y :: ys => if String.leb x y then x :: y :: ys else y :: insert_sorted x ys
  end.

Definition sorted (xs : list string) : list string :=
  foldr insert_sorted [] xs.

(** [set.add]: a set of strings kept as a duplicate-free list. *)
Definition set_add (x : string) (xs : list string) : list string :=
  if bool_decide (x ∈ xs) then xs else xs ++ [x].

(** [posixpath.join(a, b)] *)
Definition path_join (a b : string) : string :=
  match b with
  | String "/" _ => b
  | _ =>
      match a with
      | EmptyString => b
      | _ => if String.prefix "/" (String.substring (String.length a - 1) 1 a)
             then a +:+ b else a +:+ "/" +:+ b
      end
  end.

End Py.

(** ** Data model *)

Record ColumnInfo := {
  name : string;
  data_type : string;
  is_nullable : bool;
  is_primary_key : bool;
  is_auto_increment : bool;
  max_length : option Z;
  numeric_precision : option Z;
  numeric_scale : option Z
}.

Record AttributeConfig := {
  use_key : bool;
  use_required : bool;
  use_column : bool;
  use_maxlength : bool;
  use_table : bool;
  use_database_generated : bool
}.

(** ** The type mapper *)

Definition type_mapping : gmap string string :=
  list_to_map
    [ ("bit", "bool"); ("tinyint", "byte"); ("smallint", "short");
      ("int", "int"); ("bigint", "long"); ("decimal", "decimal");
      ("float", "float"); ("double", "double"); ("datetime", "DateTime");
      ("date", "DateTime"); ("timestamp", "DateTime"); ("time", "TimeSpan");
      ("char", "string"); ("varchar", "string"); ("text", "string");
      ("longtext", "string"); ("json", "string") ].

Definition get_csharp_type (column : ColumnInfo) : string :=
  let base_type := Py.lower (data_type column) in
  if bool_decide (base_type = "tinyint") && bool_decide (max_length column = Some 1)
  then (if negb (is_nullable column) then "bool" else "bool?")
  else
    let cs_type := default "object" (type_mapping !! base_type) in
    if is_nullable column && negb (bool_decide (cs_type = "string"))
    then cs_type +:+ "?"
    else cs_type.

(** ** The casing transform *)

Definition to_pascal_case (snake_str : string) : string :=
  Py.join "" (map Py.title (Py.split "_" snake_str)).

(** ** Exceptions and results *)

Inductive exn :=
| ConfigurationError (msg : string)
| KeyError (key : string)
| ValueError (msg : string)
| AttributeError (msg : string)
| Error (msg : string)
| OSError (msg : string)
| UnboundLocalError (msg : string).

(** [str(e)] *)
Definition str_of_exn (e : exn) : string :=
  match e with
  | ConfigurationError msg => msg
  | KeyError key => "'" +:+ key +:+ "'"
  | ValueError msg => msg
  | AttributeError msg => msg
  | Error msg => msg
  | OSError msg => msg
  | UnboundLocalError msg => msg
  end.

Inductive result (A : Type) :=
| Ok (a : A)
| Raise (e : exn).
Arguments Ok {A} a.
Arguments Raise {A} e.

#[global] Instance result_ret : MRet result := @Ok.
#[global] Instance result_bind : MBind result := λ A B f r,
  match r with
  | Ok a => f a
  | Raise e => Raise e
  end.
#[global] Instance result_fmap : FMap result := λ A B f r,
  match r with
  | Ok a => Ok (f a)
  | Raise e => Raise e
  end.

(** [for x in xs: body(x)] where the body may raise *)
Fixpoint for_each {A} (body : A → result unit) (xs : list A) : result unit :=
  match xs with
  | [] => Ok tt
  | x :: rest => body x ;; for_each body rest
  end.

(** ** The configuration object

    A [ConfigParser] is the map from section names to section proxies; a
    proxy is the map from the option names visible in the section to their
    values. *)

Abbreviation SectionProxy := (gmap string string).
Abbreviation ConfigParser := (gmap string (gmap string string)).

(** [section in config] *)
Definition has_section (config : ConfigParser) (section : string) : bool :=
  bool_decide (is_Some (config !! section)).

(** [config[section]] *)
Definition get_section (config : ConfigParser) (section : string) : result SectionProxy :=
  match config !! section with
  | Some proxy => Ok proxy
  | None => Raise (KeyError section)
  end.

(** [param in proxy] *)
Definition has_option (proxy : SectionProxy) (param : string) : bool :=
  bool_decide (is_Some (proxy !! param)).

(** [proxy[key]] *)
Definition get_item (proxy : SectionProxy) (key : string) : result string :=
  match proxy !! key with
  | Some v => Ok v
  | None => Raise (KeyError key)
  end.

(** [proxy.get(key, fallback)] *)
Definition get_fallback (proxy : SectionProxy) (key fallback : string) : string :=
  default fallback (proxy !! key).

(** [RawConfigParser.BOOLEAN_STATES], applied to the lowered value *)
Definition convert_to_boolean (value : string) : result bool :=
  let v := Py.lower value in
  if bool_decide (v ∈ ["1"; "yes"; "true"; "on"]) then Ok true
  else if bool_decide (v ∈ ["0"; "no"; "false"; "off"]) then Ok false
  else Raise (ValueError ("Not a boolean: " +:+ value)).

(** [proxy.getboolean(key, fallback)] *)
Definition getboolean (proxy : SectionProxy) (key : string) (fallback : bool) : result bool :=
  match proxy !! key with
  | Some v => convert_to_boolean v
  | None => Ok fallback
  end.

(** ** How configparser reads a value

    [configparser.ConfigParser()] interpolates: the value an option yields is
    its text in the file with every [%(name)s] replaced by what the option
    [name] of the same section holds, and [%%] by a percent sign
    ([BasicInterpolation.before_get]).  A section proxy above holds the
    values as they are yielded; this module says how they come from the text
    of the file. *)

Module Interpolation.

Inductive error :=
| InterpolationSyntaxError
| InterpolationMissingOptionError (var : string)
| InterpolationDepthError.

(** Where the scan of [_interpolate_some] stands: in plain text, after a
    percent sign, inside the name of a reference, or after its closing
    parenthesis, where an [s] must follow. *)
Inductive state :=
| Text
| Percent
| Name (name : string)
| Closed (name : string).

Definition MAX_INTERPOLATION_DEPTH : nat := 10.

(** [_interpolate_some], with the text it appends as its result.  [budget]
    is the number of nested calls still allowed; [values] are the raw values
    of the options visible in the section. *)
Fixpoint interpolate_some (budget : nat) (values : gmap string string) (rest : string)
  : error + string :=
  match budget with
  | O => inl InterpolationDepthError
  | S budget' =>
      (fix scan (st : state) (rest : string) {struct rest} : error + string :=
         match rest with
         | EmptyString =>
             match st with
             | Text => inr EmptyString
             | _ => inl InterpolationSyntaxError
             end
         | String c r =>
             match st with
             | Text =>
                 if Ascii.eqb c "%" then scan Percent r
                 else match scan Text r with
                      | inr tail => inr (String c tail)
                      | inl e => inl e
                      end
             | Percent =>
                 if Ascii.eqb c "%"
                 then match scan Text r with
                      | inr tail => inr (String "%" tail)
                      | inl e => inl e
                      end
                 else if Ascii.eqb c "(" then scan (Name EmptyString) r
                 else inl InterpolationSyntaxError
             | Name name =>
                 if Ascii.eqb c ")"
                 then match name with
                      | EmptyString => inl InterpolationSyntaxError
                      | _ => scan (Closed name) r
                      end
                 else scan (Name (name +:+ String c EmptyString)) r
             | Closed name =>
                 if Ascii.eqb c "s"
                 then let var := Py.lower name in
                      match values !! var with
                      | None => inl (InterpolationMissingOptionError var)
                      | Some v =>
                          match (if Py.has_char "%" v
                                 then interpolate_some budget' values v
                                 else inr v) with
                          | inl e => inl e
                          | inr expansion =>
                              match scan Text r with
                              | inr tail => inr (expansion +:+ tail)
                              | inl e => inl e
                              end
                          end
                      end
                 else inl InterpolationSyntaxError
             end
         end) Text rest
  end.

(** [before_get] *)
Definition before_get (values : gmap string string) (value : string) : error + string :=
  interpolate_some MAX_INTERPOLATION_DEPTH values value.

(** What every option of a section yields when read. *)
Definition yielded (values : gmap string string) : gmap string (error + string) :=
  before_get values <$> values.

(** The section whose text is [values] is seen as [proxy]: every option can
    be read and yields the value [proxy] holds. *)
Definition presents (values : gmap string string) (proxy : gmap string string) : Prop :=
  yielded values = inr <$> proxy.

End Interpolation.

(** ** The generator object *)

Record EntityGenerator := {
  config : ConfigParser;
  output_dir : string;
  attribute_config : AttributeConfig;
  verbose : bool;
  generate_sql : bool;
  sql_output_file : string
}.

(** *** [_load_attribute_config]

    [attr_config] is the section proxy when the section exists and the plain
    dictionary [{}] otherwise; a plain dictionary has no [getboolean]. *)

Inductive attr_source :=
| Proxy (proxy : SectionProxy)
| PlainDict (d : gmap string string).

Definition attr_getboolean (attr_config : attr_source) (key : string) (fallback : bool)
  : result bool :=
  match attr_config with
  | Proxy proxy => getboolean proxy key fallback
  | PlainDict _ => Raise (AttributeError "'dict' object has no attribute 'getboolean'")
  end.

Definition _load_attribute_config (config : ConfigParser) : result AttributeConfig :=
  attr_config ← (if has_section config "Attributes"
                 then Proxy <$> get_section config "Attributes"
                 else Ok (PlainDict ∅));
  k ← attr_getboolean attr_config "use_key_attribute" true;
  r ← attr_getboolean attr_config "use_required_attribute" true;
  c ← attr_getboolean attr_config "use_column_attribute" true;
  m ← attr_getboolean attr_config "use_maxlength_attribute" true;
  t ← attr_getboolean attr_config "use_table_attribute" true;
  g ← attr_getboolean attr_config "use_databasegenerated_attribute" true;
  Ok {| use_key := k; use_required := r; use_column := c; use_maxlength := m;
        use_table := t; use_database_generated := g |}.

(** *** [_load_configuration]

    [file] is what [os.path.exists] and [config.read] find at the path:
    [None] when there is no file, the parsed configuration otherwise. *)

Definition required_sections : list string := ["Database"; "Generator"].
Definition required_db_params : list string := ["host"; "database"; "user"; "password"].
Definition required_gen_params : list string := ["output_directory"; "namespace"].

Definition _load_configuration (file : option ConfigParser) (config_file : string)
  : result ConfigParser :=
  match file with
  | None => Raise (ConfigurationError ("Configuration file not found: " +:+ config_file))
  | Some config =>
      for_each (λ section,
          if negb (has_section config section)
          then Raise (ConfigurationError ("Missing required section: " +:+ section))
          else Ok tt) required_sections ;;
      for_each (λ param,
          database ← get_section config "Database";
          if negb (has_option database param)
          then Raise (ConfigurationError ("Missing required database parameter: " +:+ param))
          else Ok tt) required_db_params ;;
      for_each (λ param,
          generator ← get_section config "Generator";
          if negb (has_option generator param)
          then Raise (ConfigurationError ("Missing required generator parameter: " +:+ param))
          else Ok tt) required_gen_params ;;
      Ok config
  end.

(** ** The entity renderer *)

Definition dquote : string := String "034" EmptyString.
Definition newline : string := String "010" EmptyString.

(** The attribute lines of one column, appended in the order of the source. *)
Definition column_attributes (ac : AttributeConfig) (column : ColumnInfo) : list string :=
  let attributes := [] in
  let attributes :=
    if is_primary_key column && use_key ac
    then attributes ++ ["        [Key]"] else attributes in
  let attributes :=
    if is_auto_increment column && use_database_generated ac
    then attributes ++ ["        [DatabaseGenerated(DatabaseGeneratedOption.Identity)]"]
    else attributes in
  let attributes :=
    if use_column ac
    then attributes ++ ["        [Column(" +:+ dquote +:+ name column +:+ dquote +:+ ")]"]
    else attributes in
  let attributes :=
    if negb (is_nullable column) && negb (bool_decide (data_type column = "string"))
       && use_required ac
    then attributes ++ ["        [Required]"] else attributes in
  let attributes :=
    match max_length column with
    | Some n =>
        if negb (bool_decide (n = 0))
           && bool_decide (data_type column ∈ ["varchar"; "char"])
           && use_maxlength ac
        then attributes ++ ["        [MaxLength(" +:+ Py.str_of_int n +:+ ")]"]
        else attributes
    | None => attributes
    end in
  attributes.

Definition property_line (column : ColumnInfo) : string :=
  let property_type := get_csharp_type column in
  let property_name := to_pascal_case (name column) in
  "        public " +:+ property_type +:+ " " +:+ property_name +:+ " { get; set; }".

(** One turn of the loop over the columns. *)
Definition add_property (ac : AttributeConfig) (lines : list string) (column : ColumnInfo)
  : list string :=
  let attributes := column_attributes ac column in
  let lines := match attributes with [] => lines | _ => lines ++ attributes end in
  let lines := lines ++ [property_line column] in
  lines ++ [""].

Definition using_statements (ac : AttributeConfig) : list string :=
  let using_statements := ["using System;"] in
  let using_statements :=
    if use_key ac || use_required ac || use_maxlength ac
    then Py.set_add "using System.ComponentModel.DataAnnotations;" using_statements
    else using_statements in
  let using_statements :=
    if use_column ac || use_table ac || use_database_generated ac
    then Py.set_add "using System.ComponentModel.DataAnnotations.Schema;" using_statements
    else using_statements in
  using_statements.

(** The list [lines] of [generate_class] as it stands before the final join. *)
Definition class_lines (self : EntityGenerator) (table_name : string)
    (columns : list ColumnInfo) : result (list string) :=
  let ac := attribute_config self in
  let class_name := to_pascal_case table_name in
  let lines := Py.sorted (using_statements ac) in
  generator ← get_section (config self) "Generator";
  namespace ← get_item generator "namespace";
  let lines := lines ++ [""; "namespace " +:+ namespace; "{"] in
  let lines :=
    if use_table ac
    then lines ++ ["    [Table(" +:+ dquote +:+ table_name +:+ dquote +:+ ")]"]
    else lines in
  let lines := lines ++ ["    public class " +:+ class_name; "    {"] in
  let lines := fold_left (add_property ac) columns lines in
  let lines := lines ++ ["    }"; "}"] in
  Ok lines.

Definition generate_class (self : EntityGenerator) (table_name : string)
    (columns : list ColumnInfo) : result string :=
  Py.join newline <$> class_lines self table_name columns.

(** ** The schema reader *)

(** One row of the column query, fields in the order of the SELECT list. *)
Record Row := {
  COLUMN_NAME : string;
  DATA_TYPE : string;
  IS_NULLABLE : string;
  COLUMN_KEY : string;
  EXTRA : string;
  CHARACTER_MAXIMUM_LENGTH : option Z;
  NUMERIC_PRECISION : option Z;
  NUMERIC_SCALE : option Z;
  COLUMN_TYPE : string
}.

Definition column_of_row (row : Row) : ColumnInfo :=
  let column_type := Py.lower (COLUMN_TYPE row) in
  let max_length :=
    if Py.contains "tinyint" column_type
    then match Py.search_width "tinyint" column_type with
         | Some digits => Some (Py.int_of_digits digits)
         | None => None
         end
    else CHARACTER_MAXIMUM_LENGTH row in
  {| name := COLUMN_NAME row;
     data_type := DATA_TYPE row;
     is_nullable := bool_decide (IS_NULLABLE row = "YES");
     is_primary_key := bool_decide (COLUMN_KEY row = "PRI");
     is_auto_increment := Py.contains "auto_increment" (EXTRA row);
     max_length := max_length;
     numeric_precision := NUMERIC_PRECISION row;
     numeric_scale := NUMERIC_SCALE row |}.

(** The loop of [get_columns] over [cursor.fetchall()]. *)
Definition columns_of_rows (rows : list Row) : list ColumnInfo :=
  fold_left (λ columns row, columns ++ [column_of_row row]) rows [].

(** ** The world the program runs in, and its effects

    The database server is a function from connection parameters to a catalog
    or a connector error; a catalog says whether the connection hands out a
    cursor and whether cursor and connection can be closed ([open_cursor],
    [close_cursor] and [close_connection] are [None] when [conn.cursor()],
    [cursor.close()] and [conn.close()] return, the exception the call raises
    otherwise) and answers the three queries the program sends.  The rows of the column query come in the order of its ORDER BY
    clause, the catalog's ordinal position.

    The file system answers the two calls the program makes: [makedirs] and
    [write_file] are [None] when the call returns and the exception it raises
    otherwise.  [unbound_local_message] is the interpreter's message for a
    local variable read before it was bound; it differs between Python
    versions. *)

Record Catalog := {
  open_cursor : option exn;
  close_cursor : option exn;
  close_connection : option exn;
  base_tables : string → list string;
  column_rows : string → string → list Row;
  show_create_table : string → string
}.

Record World := {
  config_files : string → option ConfigParser;
  mysql_connect : string → string → string → string → result Catalog;
  now : string;
  makedirs : string → option exn;
  write_file : string → string → option exn;
  unbound_local_message : string → string
}.

(** An event is a call the program makes to the outside; whether the call
    returned is the world's answer, seen in the outcome. *)
Inductive event :=
| Print (message : string)
| MakeDirs (path : string)
| Connect (host database user password : string)
| OpenCursor
| WriteFile (path content : string)
| CloseCursor
| CloseConnection.

(** A computation: the events it caused, and its value or the exception that
    ended it. *)
Definition M (A : Type) : Type := (list event * result A)%type.

#[global] Instance M_ret : MRet M := λ A a, ([], Ok a).
#[global] Instance M_bind : MBind M := λ A B f m,
  match m with
  | (t, Ok a) => let '(t', r) := f a in (t ++ t', r)
  | (t, Raise e) => (t, Raise e)
  end.

Definition emit (e : event) : M unit := ([e], Ok tt).

(** A call that may fail: the event, and the world's answer to it. *)
Definition call (e : event) (answer : option exn) : M unit :=
  ([e], match answer with None => Ok tt | Some x => Raise x end).
Definition lift {A} (r : result A) : M A := ([], r).

(** [try: m  except ... as e: h(e); raise] *)
Definition on_error {A} (m : M A) (h : exn → M unit) : M A :=
  match m with
  | (t, Ok a) => (t, Ok a)
  | (t, Raise e) => (t ++ fst (h e), Raise e)
  end.

(** [try: m  finally: f]: the cleanup runs whatever [m] did; an exception of
    the cleanup takes the place of the outcome of [m]. *)
Definition finally {A} (m : M A) (f : M unit) : M A :=
  match f with
  | (t, Ok _) => (fst m ++ t, snd m)
  | (t, Raise e) => (fst m ++ t, Raise e)
  end.

Fixpoint for_each_M {A} (body : A → M unit) (xs : list A) : M unit :=
  match xs with
  | [] => mret tt
  | x :: rest => body x ;; for_each_M body rest
  end.

Definition trace {A} (m : M A) : list event := fst m.
Definition outcome {A} (m : M A) : result A := snd m.

Definition log (self : EntityGenerator) (message : string) : M unit :=
  if verbose self then emit (Print message) else mret tt.

(** [self.config[section][key]] *)
Definition config_item (self : EntityGenerator) (section key : string) : M string :=
  lift (proxy ← get_section (config self) section; get_item proxy key).

Definition __init__ (w : World) (config_file : string) : M EntityGenerator :=
  config ← lift (_load_configuration (config_files w config_file) config_file);
  output_dir ← lift (g ← get_section config "Generator"; get_item g "output_directory");
  attribute_config ← lift (_load_attribute_config config);
  verbose ← lift (g ← get_section config "Generator"; getboolean g "verbose" true);
  generate_sql ← lift (g ← get_section config "Generator"; getboolean g "generate_sql" false);
  sql_output_file ← lift (g ← get_section config "Generator";
                          Ok (get_fallback g "sql_output_file" "database_structure.sql"));
  let self := {| config := config; output_dir := output_dir;
                 attribute_config := attribute_config; verbose := verbose;
                 generate_sql := generate_sql; sql_output_file := sql_output_file |} in
  call (MakeDirs output_dir) (makedirs w output_dir) ;;
  log self ("Initialized generator with configuration from: " +:+ config_file) ;;
  mret self.

Definition get_connection (w : World) (self : EntityGenerator) : M Catalog :=
  on_error
    (host ← config_item self "Database" "host";
     database ← config_item self "Database" "database";
     user ← config_item self "Database" "user";
     password ← config_item self "Database" "password";
     emit (Connect host database user password) ;;
     lift (mysql_connect w host database user password))
    (λ e, match e with
          | Error _ => log self ("Failed to connect to database: " +:+ str_of_exn e)
          | _ => mret tt
          end).

Definition get_tables (self : EntityGenerator) (cursor : Catalog) : M (list string) :=
  database ← config_item self "Database" "database";
  mret (base_tables cursor database).

Definition get_columns (self : EntityGenerator) (cursor : Catalog) (table_name : string)
  : M (list ColumnInfo) :=
  database ← config_item self "Database" "database";
  mret (columns_of_rows (column_rows cursor database table_name)).

Definition len {A} (xs : list A) : string := Py.str_of_int (Z.of_nat (length xs)).

Definition generate_sql_script (w : World) (self : EntityGenerator) (cursor : Catalog)
  : M string :=
  log self "Generating SQL creation script..." ;;
  tables ← get_tables self cursor;
  database ← config_item self "Database" "database";
  let script_parts :=
    [ "-- Database structure script";
      "-- Generated on " +:+ now w;
      "-- Database: " +:+ database;
      "";
      "SET FOREIGN_KEY_CHECKS=0;";
      "SET SQL_MODE = 'NO_AUTO_VALUE_ON_ZERO';";
      "SET NAMES utf8mb4;";
      "" ] in
  let '(logged, script_parts) :=
    fold_left (λ '(logged, script_parts) table,
        (logged ++ trace (log self ("Getting structure for table: " +:+ table)),
         script_parts ++
           [ "-- Table structure for table `" +:+ table +:+ "`";
             "DROP TABLE IF EXISTS `" +:+ table +:+ "`;";
             show_create_table cursor table +:+ ";";
             "" ]))
      tables ([], script_parts) in
  let script_parts := script_parts ++ ["SET FOREIGN_KEY_CHECKS=1;"] in
  ((logged, Ok (Py.join newline script_parts)) : M string).

(** The name of the file an entity class is written to. *)
Definition entity_file_name (table : string) : string := to_pascal_case table +:+ ".cs".

Definition process_table (w : World) (self : EntityGenerator) (cursor : Catalog)
    (table : string) : M unit :=
  log self ("Processing table: " +:+ table) ;;
  columns ← get_columns self cursor table;
  log self ("Found " +:+ len columns +:+ " columns in table " +:+ table) ;;
  class_content ← lift (generate_class self table columns);
  let file_name := entity_file_name table in
  let file_path := Py.path_join (output_dir self) file_name in
  call (WriteFile file_path class_content) (write_file w file_path class_content) ;;
  log self ("Generated entity class: " +:+ file_name).

Definition report_error (self : EntityGenerator) (e : exn) : M unit :=
  match e with
  | Error _ => log self ("Database error: " +:+ str_of_exn e)
  | _ => log self ("Error: " +:+ str_of_exn e)
  end.

(** From the connection to the cursor: the message about the connection,
    whose text reads the configuration, and [cursor = conn.cursor()]. *)
Definition get_cursor (self : EntityGenerator) (conn : Catalog) : M Catalog :=
  database ← config_item self "Database" "database";
  log self ("Successfully connected to database: " +:+ database) ;;
  call OpenCursor (open_cursor conn) ;;
  mret conn.

(** What [generate_entities] does once [cursor] is bound. *)
Definition with_cursor (w : World) (self : EntityGenerator) (cursor : Catalog) : M unit :=
  tables ← get_tables self cursor;
  log self ("Found " +:+ len tables +:+ " tables in database") ;;
  (if generate_sql self
   then
     log self "Generating SQL script..." ;;
     sql_script ← generate_sql_script w self cursor;
     let sql_file_path := Py.path_join (output_dir self) (sql_output_file self) in
     call (WriteFile sql_file_path sql_script) (write_file w sql_file_path sql_script) ;;
     log self ("SQL script generated: " +:+ sql_file_path)
   else mret tt) ;;
  for_each_M (process_table w self cursor) tables ;;
  log self (newline +:+ "Entity generation completed successfully!").

(** The body of the [finally] clause once ['conn' in locals()] holds.  With
    [cursor] unbound, evaluating [cursor.close()] raises [UnboundLocalError]
    before anything is called; [conn.close()] is not reached. *)
Definition release (w : World) (self : EntityGenerator) (conn : Catalog)
    (cursor : option Catalog) : M unit :=
  match cursor with
  | None => lift (Raise (UnboundLocalError (unbound_local_message w "cursor")))
  | Some cursor =>
      call CloseCursor (close_cursor cursor) ;;
      call CloseConnection (close_connection conn) ;;
      log self "Database connection closed"
  end.

(** The one [try] block of [generate_entities], cut where the variables the
    [finally] clause names get bound.  An exception is first reported by the
    matching [except] clause and raised again; then the [finally] clause
    runs.
    - [conn] unbound ([get_connection] raised): the clause does nothing.
    - [conn] bound, [cursor] unbound (the message after connecting or
      [conn.cursor()] raised): the clause raises [UnboundLocalError] in
      place of the exception under way.
    - both bound: cursor and connection are closed and a message is logged.
    [with_connection] is the part that runs with [conn] bound. *)
Definition with_connection (w : World) (self : EntityGenerator) (conn : Catalog) : M unit :=
  match on_error (get_cursor self conn) (report_error self) with
  | (t, Raise e) => finally ((t, Raise e) : M unit) (release w self conn None)
  | (t, Ok cursor) =>
      ((t, Ok cursor) : M Catalog) ≫= λ cursor,
        finally (on_error (with_cursor w self cursor) (report_error self))
                (release w self conn (Some cursor))
  end.

Definition generate_entities (w : World) (self : EntityGenerator) : M unit :=
  conn ← on_error (log self "Connecting to database..." ;; get_connection w self)
                  (report_error self);
  with_connection w self conn.

Definition default_config_text : string :=
  Py.join newline
    [ "[Database]"; "host = localhost"; "database = your_database_name";
      "user = username"; "password = your_password"; "";
      "[Generator]"; "output_directory = ./GeneratedEntities";
      "namespace = Write.Your.Namespace"; "language = csharp"; "";
      "[Attributes]"; "use_key_attribute = true"; "use_required_attribute = true";
      "use_column_attribute = true"; "use_maxlength_attribute = true";
      "use_table_attribute = true"; "use_databasegenerated_attribute = true"; ""; "" ].

Definition create_default_config (w : World) (file_path : string) : M unit :=
  call (WriteFile file_path default_config_text)
       (write_file w file_path default_config_text).

(** [main], with [sys.argv] as argument.  A [ConfigurationError] and any other
    exception raised by the constructor or by the run are caught and printed;
    the default configuration is written outside the [try] block. *)
Definition main (w : World) (argv : list string) : M unit :=
  emit (Print "Database Entity Generator") ;;
  emit (Print "------------------------") ;;
  let config_file := match argv with _ :: a :: _ => a | _ => "database_config.ini" end in
  match config_files w config_file with
  | None =>
      emit (Print ("Configuration file not found. Creating default configuration at: "
                   +:+ config_file)) ;;
      create_default_config w config_file ;;
      emit (Print "Please update the configuration file with your database details and run the program again.")
  | Some _ =>
      match (generator ← __init__ w config_file; generate_entities w generator) with
      | (t, Ok _) => (t, Ok tt)
      | (t, Raise (ConfigurationError msg)) =>
          (t ++ [Print ("Configuration error: " +:+ msg)], Ok tt)
      | (t, Raise e) => (t ++ [Print ("Error: " +:+ str_of_exn e)], Ok tt)
      end
  end.

(** ** Derived notions used in the statements *)

(** The scalar type a column maps to, before any nullable decoration: what
    the mapper returns for the same column declared NOT NULL. *)
Definition not_null (column : ColumnInfo) : ColumnInfo :=
  {| name := name column; data_type := data_type column; is_nullable := false;
     is_primary_key := is_primary_key column;
     is_auto_increment := is_auto_increment column;
     max_length := max_length column;
     numeric_precision := numeric_precision column;
     numeric_scale := numeric_scale column |}.

Definition mapped_type (column : ColumnInfo) : string :=
  get_csharp_type (not_null column).

Definition with_max_length (n : option Z) (column : ColumnInfo) : ColumnInfo :=
  {| name := name column; data_type := data_type column;
     is_nullable := is_nullable column;
     is_primary_key := is_primary_key column;
     is_auto_increment := is_auto_increment column;
     max_length := n;
     numeric_precision := numeric_precision column;
     numeric_scale := numeric_scale column |}.

(** The five attribute lines in the order the renderer is meant to emit them,
    each with its toggle, its precondition on the column and its text. *)
Inductive attribute_kind :=
| KeyMarker
| GeneratedMarker
| ColumnBinding
| RequiredMarker
| MaxLengthConstraint.

Definition fixed_order : list attribute_kind :=
  [KeyMarker; GeneratedMarker; ColumnBinding; RequiredMarker; MaxLengthConstraint].

Definition toggle (ac : AttributeConfig) (k : attribute_kind) : bool :=
  match k with
  | KeyMarker => use_key ac
  | GeneratedMarker => use_database_generated ac
  | ColumnBinding => use_column ac
  | RequiredMarker => use_required ac
  | MaxLengthConstraint => use_maxlength ac
  end.

Definition precondition (column : ColumnInfo) (k : attribute_kind) : bool :=
  match k with
  | KeyMarker => is_primary_key column
  | GeneratedMarker => is_auto_increment column
  | ColumnBinding => true
  | RequiredMarker =>
      negb (is_nullable column) && negb (bool_decide (data_type column = "string"))
  | MaxLengthConstraint =>
      match max_length column with
      | Some n => negb (bool_decide (n = 0))
                  && bool_decide (data_type column ∈ ["varchar"; "char"])
      | None => false
      end
  end.

Definition attribute_text (column : ColumnInfo) (k : attribute_kind) : string :=
  match k with
  | KeyMarker => "        [Key]"
  | GeneratedMarker => "        [DatabaseGenerated(DatabaseGeneratedOption.Identity)]"
  | ColumnBinding => "        [Column(" +:+ dquote +:+ name column +:+ dquote +:+ ")]"
  | RequiredMarker => "        [Required]"
  | MaxLengthConstraint =>
      "        [MaxLength(" +:+ Py.str_of_int (default 0 (max_length column)) +:+ ")]"
  end.

(** What [class_lines] holds before the first property and after the last. *)
Definition preamble (ac : AttributeConfig) (namespace table_name : string) : list string :=
  Py.sorted (using_statements ac)
  ++ [""; "namespace " +:+ namespace; "{"]
  ++ (if use_table ac
      then ["    [Table(" +:+ dquote +:+ table_name +:+ dquote +:+ ")]"] else [])
  ++ ["    public class " +:+ to_pascal_case table_name; "    {"].

Definition closing : list string := ["    }"; "}"].

(** The lines one column contributes. *)
Definition column_block (ac : AttributeConfig) (column : ColumnInfo) : list string :=
  column_attributes ac column ++ [property_line column; ""].

Definition emitted (ac : AttributeConfig) (column : ColumnInfo) (k : attribute_kind) : bool :=
  precondition column k && toggle ac k.

(** Lines of the rendered class by their role. *)
Definition is_declaration (line : string) : bool := String.prefix "        public " line.
Definition is_attribute (line : string) : bool :=
  String.prefix "        [" line || String.prefix "    [" line.
Definition is_using (line : string) : bool := String.prefix "using " line.

(** Two configurations that differ at most in [Generator.language]. *)
Definition same_but_language (c1 c2 : ConfigParser) : Prop :=
  delete "Generator" c1 = delete "Generator" c2 ∧
  delete "language" <$> (c1 !! "Generator") = delete "language" <$> (c2 !! "Generator").

Definition same_but_language_file (f1 f2 : option ConfigParser) : Prop :=
  match f1, f2 with
  | Some c1, Some c2 => same_but_language c1 c2
  | None, None => True
  | _, _ => False
  end.

(** Two worlds that answer every call alike; their configuration files may
    differ. *)
Definition same_outside (w1 w2 : World) : Prop :=
  (∀ h d u p, mysql_connect w1 h d u p = mysql_connect w2 h d u p)
  ∧ now w1 = now w2
  ∧ (∀ path, makedirs w1 path = makedirs w2 path)
  ∧ (∀ path content, write_file w1 path content = write_file w2 path content)
  ∧ (∀ variable, unbound_local_message w1 variable = unbound_local_message w2 variable).

(** Two generator objects built from such configurations. *)
Definition same_generator (s1 s2 : EntityGenerator) : Prop :=
  same_but_language (config s1) (config s2)
  ∧ output_dir s1 = output_dir s2
  ∧ attribute_config s1 = attribute_config s2
  ∧ verbose s1 = verbose s2
  ∧ generate_sql s1 = generate_sql s2
  ∧ sql_output_file s1 = sql_output_file s2.

(** The options whose absence [_load_configuration] rejects. *)
Definition required_options : list (string * string) :=
  [ ("Database", "host"); ("Database", "database"); ("Database", "user");
    ("Database", "password"); ("Generator", "output_directory");
    ("Generator", "namespace") ].

Definition lookup_option (config : ConfigParser) (section key : string) : option string :=
  config !! section ≫= (.!! key).

(** The six toggles by name: the option that sets each, and its value in a
    loaded [AttributeConfig]. *)
Inductive toggle_name :=
| UseKey
| UseRequired
| UseColumn
| UseMaxLength
| UseTable
| UseDatabaseGenerated.

Definition toggle_key (t : toggle_name) : string :=
  match t with
  | UseKey => "use_key_attribute"
  | UseRequired => "use_required_attribute"
  | UseColumn => "use_column_attribute"
  | UseMaxLength => "use_maxlength_attribute"
  | UseTable => "use_table_attribute"
  | UseDatabaseGenerated => "use_databasegenerated_attribute"
  end.

Definition toggle_value (ac : AttributeConfig) (t : toggle_name) : bool :=
  match t with
  | UseKey => use_key ac
  | UseRequired => use_required ac
  | UseColumn => use_column ac
  | UseMaxLength => use_maxlength ac
  | UseTable => use_table ac
  | UseDatabaseGenerated => use_database_generated ac
  end.

(** A computation that makes no call of the kind [p]. *)
Definition silent {A} (p : event → bool) (m : M A) : Prop :=
  List.filter p (trace m) = [].

(** Events by kind. *)
Definition is_print (e : event) : bool :=
  match e with Print _ => true | _ => false end.
Definition is_connect (e : event) : bool :=
  match e with Connect _ _ _ _ => true | _ => false end.
Definition is_write (e : event) : bool :=
  match e with WriteFile _ _ => true | _ => false end.
Definition is_close (e : event) : bool :=
  match e with CloseCursor | CloseConnection => true | _ => false end.


Definition script_table (cursor : Catalog) (table : string) : list string :=
  [ "-- Table structure for table `" +:+ table +:+ "`";
    "DROP TABLE IF EXISTS `" +:+ table +:+ "`;";
    show_create_table cursor table +:+ ";";
    "" ].

(** What a run is expected to leave in the trace.  [say] is what [log]
    prints; the other definitions list the events of one table, of the schema
    script and of a whole run that connects. *)
Definition say (self : EntityGenerator) (message : string) : list event :=
  if verbose self then [Print message] else [].







(** A generator whose configuration holds the connection parameters and the
    namespace, as every generator built by [__init__] does. *)
Record configured (self : EntityGenerator)
    (host database user password namespace : string) : Prop := {
  has_host : lookup_option (config self) "Database" "host" = Some host;
  has_database : lookup_option (config self) "Database" "database" = Some database;
  has_user : lookup_option (config self) "Database" "user" = Some user;
  has_password : lookup_option (config self) "Database" "password" = Some password;
  has_namespace : lookup_option (config self) "Generator" "namespace" = Some namespace
}.

(** ** Sample inputs *)

Definition all_on : AttributeConfig :=
  {| use_key := true; use_required := true; use_column := true; use_maxlength := true;
     use_table := true; use_database_generated := true |}.

Definition all_off : AttributeConfig :=
  {| use_key := false; use_required := false; use_column := false; use_maxlength := false;
     use_table := false; use_database_generated := false |}.

Definition column (n t : string) (nullable : bool) (len : option Z) : ColumnInfo :=
  {| name := n; data_type := t; is_nullable := nullable; is_primary_key := false;
     is_auto_increment := false; max_length := len;
     numeric_precision := None; numeric_scale := None |}.

Definition orders_rows : list Row :=
  [ {| COLUMN_NAME := "id"; DATA_TYPE := "int"; IS_NULLABLE := "NO"; COLUMN_KEY := "PRI";
       EXTRA := "auto_increment"; CHARACTER_MAXIMUM_LENGTH := None;
       NUMERIC_PRECISION := Some 10; NUMERIC_SCALE := Some 0; COLUMN_TYPE := "int" |};
    {| COLUMN_NAME := "is_paid"; DATA_TYPE := "tinyint"; IS_NULLABLE := "NO";
       COLUMN_KEY := ""; EXTRA := ""; CHARACTER_MAXIMUM_LENGTH := None;
       NUMERIC_PRECISION := Some 3; NUMERIC_SCALE := Some 0;
       COLUMN_TYPE := "tinyint(1)" |};
    {| COLUMN_NAME := "note"; DATA_TYPE := "varchar"; IS_NULLABLE := "YES";
       COLUMN_KEY := ""; EXTRA := ""; CHARACTER_MAXIMUM_LENGTH := Some 255;
       NUMERIC_PRECISION := None; NUMERIC_SCALE := None;
       COLUMN_TYPE := "varchar(255)" |} ].

Definition orders_catalog : Catalog :=
  {| open_cursor := None;
     close_cursor := None;
     close_connection := None;
     base_tables := λ _, ["orders"];
     column_rows := λ _ _, orders_rows;
     show_create_table := λ _, "CREATE TABLE `orders` (...)" |}.

(** A configuration with the two required sections and nothing else. *)
Definition minimal_config : ConfigParser :=
  {[ "Database" := {[ "host" := "localhost"; "database" := "shop";
                      "user" := "root"; "password" := "secret" ]};
     "Generator" := {[ "output_directory" := "out"; "namespace" := "Shop" ]} ]}.

Definition full_config : ConfigParser :=
  <[ "Attributes" := ∅ ]> minimal_config.

Definition no_password_config : ConfigParser :=
  <[ "Database" := {[ "host" := "localhost"; "database" := "shop"; "user" := "root" ]} ]>
  full_config.

(** A [Generator] section whose namespace refers to the language option: its
    text in the file, and what the section proxy yields for it. *)
Definition generator_text (language : string) : gmap string string :=
  {[ "output_directory" := "out"; "namespace" := "My.%(language)s";
     "language" := language ]}.

Definition generator_seen (language : string) : gmap string string :=
  {[ "output_directory" := "out"; "namespace" := "My." +:+ language;
     "language" := language ]}.

Definition referring_config (language : string) : ConfigParser :=
  <[ "Generator" := generator_seen language ]> full_config.

Definition with_language (v : string) (c : ConfigParser) : ConfigParser :=
  alter (<[ "language" := v ]>) "Generator" c.

Definition world_of (c : ConfigParser) : World :=
  {| config_files := λ _, Some c;
     mysql_connect := λ _ _ _ _, Ok orders_catalog;
     now := "2024-01-01 00:00:00";
     makedirs := λ _, None;
     write_file := λ _ _, None;
     unbound_local_message := λ variable,
       "cannot access local variable '" +:+ variable
       +:+ "' where it is not associated with a value" |}.

Definition generator_of (c : ConfigParser) (ac : AttributeConfig) : EntityGenerator :=
  {| config := c; output_dir := "out"; attribute_config := ac; verbose := true;
     generate_sql := false; sql_output_file := "database_structure.sql" |}.

(** * Properties *)

(** ** Facts about the string functions *)

Section casing.

Local Ltac by_cases c := destruct c as [[] [] [] [] [] [] [] []]; reflexivity.

Lemma to_upper_idem c : Py.to_upper (Py.to_upper c) = Py.to_upper c.
Proof. by_cases c. Qed.

Lemma to_lower_idem c : Py.to_lower (Py.to_lower c) = Py.to_lower c.
Proof. by_cases c. Qed.

Lemma is_cased_to_upper c : Py.is_cased (Py.to_upper c) = Py.is_cased c.
Proof. by_cases c. Qed.

Lemma is_cased_to_lower c : Py.is_cased (Py.to_lower c) = Py.is_cased c.
Proof. by_cases c. Qed.

Lemma to_upper_underscore c : Ascii.eqb (Py.to_upper c) "_" = Ascii.eqb c "_".
Proof. by_cases c. Qed.

Lemma to_lower_underscore c : Ascii.eqb (Py.to_lower c) "_" = Ascii.eqb c "_".
Proof. by_cases c. Qed.

End casing.

Lemma do_title_idem s : ∀ b, Py.do_title b (Py.do_title b s) = Py.do_title b s.
Proof.
  induction s as [|c r IH]; intros b; simpl; [done|].
  destruct b.
  - by rewrite to_lower_idem, is_cased_to_lower, IH.
  - by rewrite to_upper_idem, is_cased_to_upper, IH.
Qed.

Lemma title_idem s : Py.title (Py.title s) = Py.title s.
Proof. apply do_title_idem. Qed.

Lemma has_char_do_title s : ∀ b, Py.has_char "_" (Py.do_title b s) = Py.has_char "_" s.
Proof.
  induction s as [|c r IH]; intros b; simpl; [done|].
  rewrite IH. destruct b; by rewrite ?to_lower_underscore, ?to_upper_underscore.
Qed.

Lemma has_char_append c s t :
  Py.has_char c (s +:+ t) = Py.has_char c s || Py.has_char c t.
Proof. induction s as [|d r IH]; simpl; [done|]. by rewrite IH, orb_assoc. Qed.

Lemma split_nonempty sep s : Py.split sep s ≠ [].
Proof. destruct s as [|c r]; simpl; [done|]. by repeat case_match. Qed.

Lemma split_no_sep sep s : Py.has_char sep s = false → Py.split sep s = [s].
Proof.
  induction s as [|c r IH]; simpl; [done|].
  intros [Hc Hr]%orb_false_iff. by rewrite Hc, (IH Hr).
Qed.

Lemma split_pieces sep s : Forall (λ w, Py.has_char sep w = false) (Py.split sep s).
Proof.
  induction s as [|c r IH]; simpl; [by repeat constructor|].
  destruct (Ascii.eqb c sep) eqn:Hc; [by constructor|].
  destruct (Py.split sep r) as [|w ws]; [by repeat constructor; simpl; rewrite Hc|].
  inversion IH; subst. constructor; [simpl; by rewrite Hc|done].
Qed.

Lemma has_char_join_empty c ws :
  Forall (λ w, Py.has_char c w = false) ws → Py.has_char c (Py.join "" ws) = false.
Proof.
  unfold Py.join. induction 1 as [|w ws Hw _ IH]; simpl; [done|].
  destruct ws as [|w' ws']; [done|].
  simpl String.append. rewrite has_char_append, Hw. exact IH.
Qed.

Lemma to_pascal_case_single s :
  Py.has_char "_" s = false → to_pascal_case s = Py.title s.
Proof. intros H. unfold to_pascal_case. by rewrite (split_no_sep _ _ H). Qed.

Lemma to_pascal_case_no_underscore s : Py.has_char "_" (to_pascal_case s) = false.
Proof.
  unfold to_pascal_case. apply has_char_join_empty, Forall_fmap.
  eapply Forall_impl; [apply split_pieces|].
  intros w Hw. simpl. unfold Py.title. by rewrite has_char_do_title.
Qed.


(** ** The type mapper *)

(** C1 (as amended).  The boolean special case is tied to the type name
    [tinyint], in any letter case: such a column with width exactly 1 maps to
    [bool] ([bool?] when nullable) although the table maps [tinyint] to
    [byte]; for every other type name the width is not consulted at all. *)
Theorem tinyint_width_one_is_bool (column : ColumnInfo) :
  (Py.lower (data_type column) = "tinyint" → max_length column = Some 1 →
     get_csharp_type column = (if is_nullable column then "bool?" else "bool")
     ∧ type_mapping !! "tinyint" = Some "byte")
  ∧ (Py.lower (data_type column) ≠ "tinyint" →
     ∀ n, get_csharp_type (with_max_length n column) = get_csharp_type column).
Proof.
  split.
  - intros Ht Hw. split; [|by vm_compute].
    unfold get_csharp_type. rewrite Ht, Hw, !bool_decide_eq_true_2 by done.
    cbn [andb negb]. by destruct (is_nullable column).
  - intros Ht n. unfold get_csharp_type, with_max_length. cbn [data_type is_nullable].
    by rewrite !(bool_decide_eq_false_2 _ Ht).
Qed.

Lemma tinyint_width_one_is_bool_witness :
  get_csharp_type (column "is_paid" "TINYINT" true (Some 1)) = "bool?"
  ∧ get_csharp_type (with_max_length (Some 1) (column "qty" "int" false None))
    = get_csharp_type (column "qty" "int" false None).
Proof.
  split.
  - apply (proj1 (tinyint_width_one_is_bool (column "is_paid" "TINYINT" true (Some 1))));
      vm_compute; reflexivity.
  - apply (proj2 (tinyint_width_one_is_bool (column "qty" "int" false None))).
    vm_compute. discriminate.
Defined.

(** C1, as stated, fails: an [int] or [smallint] column of width 1 is not
    mapped to the boolean type. *)
Lemma integer_width_one_not_bool :
  max_length (column "flag" "smallint" false (Some 1)) = Some 1
  ∧ get_csharp_type (column "flag" "smallint" false (Some 1)) = "short"
  ∧ get_csharp_type (column "flag" "int" false (Some 1)) = "int"
  ∧ get_csharp_type (column "flag" "int" false (Some 1)) ≠ "bool".
Proof. repeat split; try (vm_compute; reflexivity). vm_compute. discriminate. Qed.

(** C3.  A nullable column whose mapped type is not [string] gets the mapped
    type followed by a question mark; a column whose mapped type is [string]
    gets plain [string], nullable or not. *)
Theorem nullable_decoration (column : ColumnInfo) :
  (is_nullable column = true → mapped_type column ≠ "string" →
     get_csharp_type column = mapped_type column +:+ "?")
  ∧ (mapped_type column = "string" → get_csharp_type column = "string").
Proof.
  unfold mapped_type, get_csharp_type, not_null.
  cbn [data_type is_nullable max_length].
  generalize (default "object" (type_mapping !! Py.lower (data_type column))).
  intros cs_type.
  destruct (bool_decide (Py.lower (data_type column) = "tinyint")
            && bool_decide (max_length column = Some 1)); cbn [negb andb].
  - split; [by intros -> _ | intros [=]].
  - split.
    + intros -> Hs. by rewrite (bool_decide_eq_false_2 _ Hs).
    + intros ->. by destruct (is_nullable column).
Qed.

Lemma nullable_decoration_witness :
  get_csharp_type (column "total" "decimal" true None) = "decimal?"
  ∧ get_csharp_type (column "note" "varchar" true (Some 255)) = "string".
Proof.
  split.
  - apply (proj1 (nullable_decoration (column "total" "decimal" true None)));
      [reflexivity | vm_compute; discriminate].
  - apply (proj2 (nullable_decoration (column "note" "varchar" true (Some 255)))).
    vm_compute. reflexivity.
Defined.

(** ** The casing transform *)

(** C5 (as amended).  On ASCII text the transform leaves exactly those
    strings unchanged that hold no underscore and are already title-cased.
    Its output on an underscore-free input is of that kind, so a second
    application changes nothing there; in general the output of two
    applications is stable. *)
Theorem to_pascal_case_fixed_points (s : string) :
  Py.isascii s = true →
  (to_pascal_case s = s ↔ Py.has_char "_" s = false ∧ Py.title s = s)
  ∧ (Py.has_char "_" s = false →
     to_pascal_case (to_pascal_case s) = to_pascal_case s)
  ∧ to_pascal_case (to_pascal_case (to_pascal_case s))
    = to_pascal_case (to_pascal_case s).
Proof.
  intros _. split; [|split].
  - split.
    + intros Hs. assert (Hu : Py.has_char "_" s = false).
      { rewrite <- Hs. apply to_pascal_case_no_underscore. }
      split; [done|]. by rewrite <- (to_pascal_case_single _ Hu).
    + intros [Hu Ht]. by rewrite (to_pascal_case_single _ Hu).
  - intros Hu. rewrite (to_pascal_case_single _ Hu).
    rewrite to_pascal_case_single by (unfold Py.title; by rewrite has_char_do_title).
    apply title_idem.
  - pose proof (to_pascal_case_no_underscore s) as Hu.
    rewrite (to_pascal_case_single _ Hu).
    rewrite to_pascal_case_single by (unfold Py.title; by rewrite has_char_do_title).
    apply title_idem.
Qed.

Lemma to_pascal_case_fixed_points_witness :
  to_pascal_case (to_pascal_case "orders") = to_pascal_case "orders".
Proof.
  apply (to_pascal_case_fixed_points "orders"); vm_compute; reflexivity.
Defined.

(** C5, as stated, fails: the output [UserId] is in PascalCase form, and the
    transform turns it into [Userid]. *)
Lemma to_pascal_case_not_idempotent :
  to_pascal_case "user_id" = "UserId"
  ∧ to_pascal_case "UserId" = "Userid"
  ∧ to_pascal_case (to_pascal_case "user_id") ≠ to_pascal_case "user_id".
Proof. repeat split; try (vm_compute; reflexivity). vm_compute. discriminate. Qed.

(** ** The entity renderer *)

Lemma add_property_block ac lines column :
  add_property ac lines column = lines ++ column_block ac column.
Proof.
  unfold add_property, column_block.
  destruct (column_attributes ac column) as [|a attrs].
  - by rewrite <- app_assoc.
  - by rewrite <- !app_assoc.
Qed.

Lemma fold_add_property ac columns : ∀ lines,
  fold_left (add_property ac) columns lines
  = lines ++ flat_map (column_block ac) columns.
Proof.
  induction columns as [|c columns IH]; intros lines; simpl.
  - by rewrite app_nil_r.
  - by rewrite IH, add_property_block, <- app_assoc.
Qed.

Lemma class_lines_shape self table_name columns namespace :
  lookup_option (config self) "Generator" "namespace" = Some namespace →
  class_lines self table_name columns
  = Ok (preamble (attribute_config self) namespace table_name
        ++ flat_map (column_block (attribute_config self)) columns ++ closing).
Proof.
  unfold lookup_option, class_lines, get_section, get_item. intros Hns.
  destruct (config self !! "Generator") as [g|]; [|done]. simpl in Hns.
  cbn [mbind result_bind]. rewrite Hns. cbn [mbind result_bind].
  rewrite fold_add_property. unfold preamble, closing. f_equal.
  destruct (use_table (attribute_config self)); by rewrite <- !app_assoc.
Qed.

(** The source appends the attribute lines in the fixed order, each under its
    toggle and its precondition on the column. *)
Lemma column_attributes_fixed_order ac column :
  column_attributes ac column
  = map (attribute_text column) (List.filter (emitted ac column) fixed_order).
Proof.
  unfold column_attributes, emitted, fixed_order, toggle, precondition, attribute_text.
  cbn [List.filter map].
  generalize ("        [Column(" +:+ dquote +:+ name column +:+ dquote +:+ ")]").
  intros column_line.
  destruct (is_primary_key column && use_key ac),
    (is_auto_increment column && use_database_generated ac),
    (use_column ac),
    (negb (is_nullable column) && negb (bool_decide (data_type column = "string"))
     && use_required ac);
    cbn [andb app map];
    (destruct (max_length column) as [n|]; cbn [default andb];
     [destruct (negb (bool_decide (n = 0))
                && bool_decide (data_type column ∈ ["varchar"; "char"])
                && use_maxlength ac)|];
     reflexivity).
Qed.

Lemma column_attributes_all_off column : column_attributes all_off column = [].
Proof.
  rewrite column_attributes_fixed_order. unfold emitted, fixed_order.
  cbn [List.filter toggle all_off use_key use_required use_column use_maxlength
       use_database_generated].
  by rewrite !andb_false_r.
Qed.

Lemma sublist_filter_weaken {A} (p q : A → bool) (l : list A) :
  (∀ x, p x = true → q x = true) →
  sublist (List.filter p l) (List.filter q l).
Proof.
  intros Hpq. induction l as [|x l IH]; simpl; [constructor|].
  destruct (p x) eqn:Hp.
  - rewrite (Hpq _ Hp). by constructor.
  - destruct (q x); [by constructor|done].
Qed.

Lemma sublist_filter_self {A} (p : A → bool) (l : list A) :
  sublist (List.filter p l) l.
Proof.
  induction l as [|x l IH]; simpl; [constructor|].
  destruct (p x); by constructor.
Qed.

(** Roles of the lines. *)
Lemma prefix_append p s : String.prefix p (p +:+ s) = true.
Proof.
  induction p as [|a p IH]; simpl; [by destruct s|].
  by destruct (ascii_dec a a).
Qed.

Lemma property_line_is_declaration column : is_declaration (property_line column) = true.
Proof. apply prefix_append. Qed.

Lemma attribute_text_roles column k :
  is_declaration (attribute_text column k) = false
  ∧ is_attribute (attribute_text column k) = true
  ∧ is_using (attribute_text column k) = false.
Proof. by destruct k. Qed.

Lemma filter_declaration_block ac column :
  List.filter is_declaration (column_block ac column) = [property_line column].
Proof.
  unfold column_block. rewrite List.filter_app, column_attributes_fixed_order.
  cbn [List.filter]. rewrite property_line_is_declaration.
  change (is_declaration "") with false.
  induction (List.filter (emitted ac column) fixed_order) as [|k ks IH]; [done|].
  cbn [map List.filter app].
  by rewrite (proj1 (attribute_text_roles column k)).
Qed.

Lemma filter_declaration_blocks ac columns :
  List.filter is_declaration (flat_map (column_block ac) columns)
  = map property_line columns.
Proof.
  induction columns as [|c columns IH]; [done|].
  cbn [flat_map map]. by rewrite List.filter_app, filter_declaration_block, IH.
Qed.

Lemma filter_declaration_preamble ac namespace table_name :
  List.filter is_declaration (preamble ac namespace table_name) = [].
Proof.
  unfold preamble.
  destruct ac as [[] [] [] [] [] []]; vm_compute; reflexivity.
Qed.

Lemma class_lines_declarations self table_name columns namespace :
  lookup_option (config self) "Generator" "namespace" = Some namespace →
  ∃ lines, class_lines self table_name columns = Ok lines
           ∧ List.filter is_declaration lines = map property_line columns.
Proof.
  intros Hns. eexists. split; [by apply class_lines_shape|].
  rewrite !List.filter_app, filter_declaration_preamble, filter_declaration_blocks.
  by rewrite app_nil_r.
Qed.

Lemma filter_roles_blocks_all_off columns :
  List.filter is_attribute (flat_map (column_block all_off) columns) = []
  ∧ List.filter is_using (flat_map (column_block all_off) columns) = [].
Proof.
  induction columns as [|c columns [IHa IHu]]; [done|].
  cbn [flat_map]. unfold column_block at 1 3.
  rewrite column_attributes_all_off. cbn [app List.filter].
  by rewrite IHa, IHu.
Qed.

(** C7.  The lines of a column are the five attribute lines in the fixed
    order key, database-generated, column binding, required, max-length, each
    present exactly when its precondition holds and its toggle is on,
    followed by the property declaration; switching toggles on only adds
    lines to that sequence and never reorders it. *)
Theorem attribute_emission_order (ac : AttributeConfig) (column : ColumnInfo) :
  add_property ac [] column
  = map (attribute_text column) (List.filter (emitted ac column) fixed_order)
    ++ [property_line column; ""]
  ∧ sublist (add_property ac [] column)
            (map (attribute_text column) fixed_order ++ [property_line column; ""])
  ∧ ∀ ac', (∀ k, toggle ac k = true → toggle ac' k = true) →
           sublist (add_property ac [] column) (add_property ac' [] column).
Proof.
  rewrite add_property_block. unfold column_block. cbn [app].
  rewrite column_attributes_fixed_order. split; [done|split].
  - apply sublist_app; [|done]. apply (fmap_sublist (attribute_text column)), sublist_filter_self.
  - intros ac' Hac. rewrite add_property_block. unfold column_block. cbn [app].
    rewrite column_attributes_fixed_order.
    apply sublist_app; [|done]. apply (fmap_sublist (attribute_text column)), sublist_filter_weaken.
    intros k. unfold emitted. intros [Hp Ht]%andb_true_iff.
    by rewrite Hp, (Hac _ Ht).
Qed.

Lemma attribute_emission_order_witness :
  sublist (add_property all_off [] (column "note" "varchar" true (Some 255)))
          (add_property all_on [] (column "note" "varchar" true (Some 255))).
Proof.
  apply (attribute_emission_order all_off (column "note" "varchar" true (Some 255))).
  intros k. destruct k; vm_compute; discriminate.
Defined.

(** C6 (as amended).  With the six toggles off the class consists of the
    using line for [System], the namespace and class wrappers and one plain
    property declaration per column: no attribute line, no table attribute,
    and no other using line.  The property declarations are the same as under
    any other toggle assignment. *)
Theorem all_toggles_off_plain_class (self : EntityGenerator) (table_name : string)
    (columns : list ColumnInfo) (namespace : string) :
  attribute_config self = all_off →
  lookup_option (config self) "Generator" "namespace" = Some namespace →
  ∃ lines,
    class_lines self table_name columns = Ok lines
    ∧ lines = [ "using System;"; ""; "namespace " +:+ namespace; "{";
                "    public class " +:+ to_pascal_case table_name; "    {" ]
              ++ flat_map (λ c, [property_line c; ""]) columns
              ++ ["    }"; "}"]
    ∧ List.filter is_attribute lines = []
    ∧ List.filter is_using lines = ["using System;"]
    ∧ ∀ self' lines', config self' = config self →
        class_lines self' table_name columns = Ok lines' →
        List.filter is_declaration lines' = List.filter is_declaration lines.
Proof.
  intros Hoff Hns. eexists. split; [by apply class_lines_shape|].
  rewrite Hoff.
  destruct (filter_roles_blocks_all_off columns) as [Ha Hu].
  split; [|split; [|split]].
  - unfold preamble, closing. cbn [use_table all_off app].
    change (Py.sorted (using_statements all_off)) with ["using System;"].
    cbn [app]. do 6 f_equal.
    clear. induction columns as [|c columns IH]; [done|].
    cbn [flat_map]. unfold column_block at 1.
    rewrite column_attributes_all_off. cbn [app]. by rewrite IH.
  - rewrite !List.filter_app, Ha. by vm_compute.
  - rewrite !List.filter_app, Hu. by vm_compute.
  - intros self' lines' Hcfg Hlines'.
    rewrite <- Hcfg in Hns.
    destruct (class_lines_declarations self' table_name columns namespace Hns)
      as (l & Hl & Hdecl).
    rewrite Hlines' in Hl. injection Hl as <-. rewrite Hdecl.
    rewrite !List.filter_app, filter_declaration_preamble, filter_declaration_blocks.
    by rewrite app_nil_r.
Qed.

Lemma all_toggles_off_plain_class_witness :
  ∃ lines,
    class_lines (generator_of minimal_config all_off) "orders"
                (columns_of_rows orders_rows) = Ok lines
    ∧ List.filter is_attribute lines = [].
Proof.
  destruct (all_toggles_off_plain_class (generator_of minimal_config all_off) "orders"
              (columns_of_rows orders_rows) "Shop") as (lines & H1 & _ & H3 & _).
  - reflexivity.
  - vm_compute. reflexivity.
  - by exists lines.
Defined.

(** C6, as stated, fails: with every toggle off the set of using declarations
    is not empty, the class still starts with the using line for [System]. *)
Lemma all_toggles_off_keeps_using_system :
  using_statements all_off = ["using System;"]
  ∧ ∃ lines,
      class_lines (generator_of minimal_config all_off) "orders"
                  (columns_of_rows orders_rows) = Ok lines
      ∧ List.filter is_using lines ≠ [].
Proof.
  split; [reflexivity|]. eexists. split; [vm_compute; reflexivity|].
  vm_compute. discriminate.
Qed.

(** ** The schema reader *)

Lemma columns_of_rows_map rows : columns_of_rows rows = map column_of_row rows.
Proof.
  unfold columns_of_rows.
  cut (∀ acc, fold_left (λ columns row, columns ++ [column_of_row row]) rows acc
              = acc ++ map column_of_row rows).
  { intros H. by rewrite H. }
  induction rows as [|r rows IH]; intros acc; simpl.
  - by rewrite app_nil_r.
  - by rewrite IH, <- app_assoc.
Qed.

(** C8.  The reader turns the rows of the column query, which the catalog
    delivers in ordinal order, into one descriptor per row in the same order,
    and the declarations of the rendered class are those of the descriptors,
    one each, in that order. *)
Theorem column_order_preserved (self : EntityGenerator) (cursor : Catalog)
    (table_name database namespace : string) :
  lookup_option (config self) "Database" "database" = Some database →
  lookup_option (config self) "Generator" "namespace" = Some namespace →
  ∃ columns lines,
    outcome (get_columns self cursor table_name) = Ok columns
    ∧ columns = map column_of_row (column_rows cursor database table_name)
    ∧ map name columns = map COLUMN_NAME (column_rows cursor database table_name)
    ∧ class_lines self table_name columns = Ok lines
    ∧ List.filter is_declaration lines = map property_line columns.
Proof.
  intros Hdb Hns.
  destruct (class_lines_declarations self table_name
              (map column_of_row (column_rows cursor database table_name))
              namespace Hns) as (lines & Hlines & Hdecl).
  exists (map column_of_row (column_rows cursor database table_name)), lines.
  repeat split; try done.
  - unfold get_columns, config_item, lift, outcome.
    unfold lookup_option in Hdb. unfold get_section, get_item.
    destruct (config self !! "Database") as [d|]; [|done]. simpl in Hdb.
    cbn [mbind result_bind M_bind]. rewrite Hdb.
    cbn [mbind result_bind M_bind mret M_ret snd]. by rewrite columns_of_rows_map.
  - by rewrite map_map.
Qed.

Lemma column_order_preserved_witness :
  ∃ columns lines,
    outcome (get_columns (generator_of minimal_config all_on) orders_catalog "orders")
    = Ok columns
    ∧ columns = map column_of_row orders_rows
    ∧ map name columns = ["id"; "is_paid"; "note"]
    ∧ class_lines (generator_of minimal_config all_on) "orders" columns = Ok lines
    ∧ List.filter is_declaration lines = map property_line columns.
Proof.
  apply (column_order_preserved (generator_of minimal_config all_on) orders_catalog
           "orders" "shop" "Shop"); vm_compute; reflexivity.
Defined.

(** C2 at a NOT NULL [varchar] column: its mapped type is [string], and the
    renderer emits the required marker all the same, because the test in the
    renderer looks at the native type name instead of the mapped type. *)
Theorem required_marker_on_string_column :
  get_csharp_type (column "title" "varchar" false (Some 100)) = "string"
  ∧ mapped_type (column "title" "varchar" false (Some 100)) = "string"
  ∧ In "        [Required]"
       (column_attributes all_on (column "title" "varchar" false (Some 100))).
Proof.
  split; [by vm_compute|]. split; [by vm_compute|].
  vm_compute. tauto.
Qed.

(** ** Loading the configuration *)

Lemma _load_attribute_config_no_section (config : ConfigParser) :
  config !! "Attributes" = None →
  _load_attribute_config config
  = Raise (AttributeError "'dict' object has no attribute 'getboolean'").
Proof.
  intros Hno. unfold _load_attribute_config, has_section.
  rewrite bool_decide_eq_false_2; [done|].
  rewrite Hno. by intros [? ?].
Qed.

(** With the section present, a toggle whose key is absent is on. *)
Lemma absent_attribute_keys_default (config : ConfigParser) (proxy : SectionProxy)
    (ac : AttributeConfig) :
  config !! "Attributes" = Some proxy →
  _load_attribute_config config = Ok ac →
  (proxy !! "use_key_attribute" = None → use_key ac = true)
  ∧ (proxy !! "use_required_attribute" = None → use_required ac = true)
  ∧ (proxy !! "use_column_attribute" = None → use_column ac = true)
  ∧ (proxy !! "use_maxlength_attribute" = None → use_maxlength ac = true)
  ∧ (proxy !! "use_table_attribute" = None → use_table ac = true)
  ∧ (proxy !! "use_databasegenerated_attribute" = None → use_database_generated ac = true).
Proof.
  intros Hsec. unfold _load_attribute_config, has_section, get_section.
  rewrite Hsec, bool_decide_eq_true_2 by eauto.
  cbn [fmap result_fmap mbind result_bind attr_getboolean].
  unfold getboolean.
  destruct (proxy !! "use_key_attribute") as [v1|] eqn:H1;
    [destruct (convert_to_boolean v1) as [b1|]; [|done]|];
  (destruct (proxy !! "use_required_attribute") as [v2|] eqn:H2;
    [destruct (convert_to_boolean v2) as [b2|]; [|done]|]);
  (destruct (proxy !! "use_column_attribute") as [v3|] eqn:H3;
    [destruct (convert_to_boolean v3) as [b3|]; [|done]|]);
  (destruct (proxy !! "use_maxlength_attribute") as [v4|] eqn:H4;
    [destruct (convert_to_boolean v4) as [b4|]; [|done]|]);
  (destruct (proxy !! "use_table_attribute") as [v5|] eqn:H5;
    [destruct (convert_to_boolean v5) as [b5|]; [|done]|]);
  (destruct (proxy !! "use_databasegenerated_attribute") as [v6|] eqn:H6;
    [destruct (convert_to_boolean v6) as [b6|]; [|done]|]);
  cbn [mbind result_bind]; intros [= <-]; cbn; repeat split; done.
Qed.

(** C4 at a configuration without an [Attributes] section: the file passes
    validation, and loading the attribute toggles ends in an
    [AttributeError], so no generator is constructed; with an empty section
    instead, all six toggles come out on. *)
Theorem attributes_section_absent_fails :
  _load_configuration (Some minimal_config) "database_config.ini" = Ok minimal_config
  ∧ _load_attribute_config minimal_config
    = Raise (AttributeError "'dict' object has no attribute 'getboolean'")
  ∧ outcome (__init__ (world_of minimal_config) "database_config.ini")
    = Raise (AttributeError "'dict' object has no attribute 'getboolean'")
  ∧ _load_attribute_config full_config = Ok all_on.
Proof. repeat split; vm_compute; reflexivity. Qed.

(** What [_load_configuration] returns on an existing file: the configuration
    itself when the six required options are there, a [ConfigurationError]
    otherwise. *)
Lemma _load_configuration_cases (config : ConfigParser) (config_file : string) :
  (_load_configuration (Some config) config_file = Ok config
   ∧ Forall (λ '(section, key), is_Some (lookup_option config section key))
            required_options)
  ∨ ∃ msg, _load_configuration (Some config) config_file
           = Raise (ConfigurationError msg).
Proof.
  unfold _load_configuration, required_sections, required_db_params,
    required_gen_params, required_options, lookup_option, has_section, get_section,
    has_option.
  cbn [for_each]. rewrite !Forall_cons.
  destruct (config !! "Database") as [d|]; [|right; by eexists].
  destruct (config !! "Generator") as [g|]; [|right; by eexists].
  cbn [mbind result_bind option_bind bool_decide].
  destruct (d !! "host"); [|right; by eexists].
  destruct (d !! "database"); [|right; by eexists].
  destruct (d !! "user"); [|right; by eexists].
  destruct (d !! "password"); [|right; by eexists].
  destruct (g !! "output_directory"); [|right; by eexists].
  destruct (g !! "namespace"); [|right; by eexists].
  left. cbn [mbind option_bind]. eauto 10 using Forall_nil_2.
Qed.

(** C9.  When the file exists and one of the six required options, the
    password among them, is missing, [_load_configuration] raises a
    [ConfigurationError]; the constructor ends there without any effect, and
    the whole run consists of the banner and the error message: no
    connection is attempted. *)
Theorem missing_required_option_rejected (w : World) (config_file : string)
    (config : ConfigParser) (section key : string) :
  config_files w config_file = Some config →
  (section, key) ∈ required_options →
  lookup_option config section key = None →
  ∃ msg,
    _load_configuration (config_files w config_file) config_file
    = Raise (ConfigurationError msg)
    ∧ __init__ w config_file = ([], Raise (ConfigurationError msg))
    ∧ (∀ prog, main w [prog; config_file]
               = ([ Print "Database Entity Generator";
                    Print "------------------------";
                    Print ("Configuration error: " +:+ msg) ], Ok tt))
    ∧ ∀ prog host database user password,
        Connect host database user password ∉ trace (main w [prog; config_file]).
Proof.
  intros Hfile Hreq Hnone.
  destruct (_load_configuration_cases config config_file) as [[_ Hall]|[msg Hmsg]].
  { rewrite Forall_forall in Hall. specialize (Hall _ Hreq). cbn in Hall.
    rewrite Hnone in Hall. by destruct Hall. }
  exists msg.
  assert (Hinit : __init__ w config_file = ([], Raise (ConfigurationError msg))).
  { unfold __init__. by rewrite Hfile, Hmsg. }
  assert (Hmain : ∀ prog, main w [prog; config_file]
               = ([ Print "Database Entity Generator";
                    Print "------------------------";
                    Print ("Configuration error: " +:+ msg) ], Ok tt)).
  { intros prog. unfold main. by rewrite Hfile, Hinit. }
  split; [by rewrite Hfile|]. split; [done|]. split; [done|].
  intros prog host database user password. rewrite Hmain. unfold trace. cbn [fst].
  rewrite !elem_of_cons, elem_of_nil. by intros [|[|[|]]].
Qed.

Lemma missing_required_option_rejected_witness :
  ∃ msg,
    _load_configuration (config_files (world_of no_password_config) "db.ini") "db.ini"
    = Raise (ConfigurationError msg)
    ∧ __init__ (world_of no_password_config) "db.ini"
      = ([], Raise (ConfigurationError msg))
    ∧ (∀ prog, main (world_of no_password_config) [prog; "db.ini"]
               = ([ Print "Database Entity Generator";
                    Print "------------------------";
                    Print ("Configuration error: " +:+ msg) ], Ok tt))
    ∧ ∀ prog host database user password,
        Connect host database user password
        ∉ trace (main (world_of no_password_config) [prog; "db.ini"]).
Proof.
  apply (missing_required_option_rejected (world_of no_password_config) "db.ini"
           no_password_config "Database" "password").
  - reflexivity.
  - unfold required_options. rewrite !elem_of_cons. tauto.
  - vm_compute. reflexivity.
Defined.

(** ** The run and the [language] option *)

Lemma lift_bind_Ok {A B} (a : A) (f : A → M B) : lift (Ok a) ≫= f = f a.
Proof. unfold lift. cbn [mbind M_bind]. by destruct (f a). Qed.

Lemma lift_bind_Raise {A B} (e : exn) (f : A → M B) :
  lift (Raise e) ≫= f = ([], Raise e).
Proof. done. Qed.

Lemma M_bind_ext {A B} (m1 m2 : M A) (f g : A → M B) :
  m1 = m2 → (∀ a, f a = g a) → m1 ≫= f = m2 ≫= g.
Proof.
  intros -> Hfg. destruct m2 as [t [a|e]]; cbn [mbind M_bind]; [|done].
  by rewrite Hfg.
Qed.

Lemma on_error_ext {A} (m1 m2 : M A) (h1 h2 : exn → M unit) :
  m1 = m2 → (∀ e, h1 e = h2 e) → on_error m1 h1 = on_error m2 h2.
Proof.
  intros -> Hh. destruct m2 as [t [a|e]]; cbn [on_error]; [done|]. by rewrite Hh.
Qed.

Lemma finally_ext {A} (m1 m2 : M A) (f1 f2 : M unit) :
  m1 = m2 → f1 = f2 → finally m1 f1 = finally m2 f2.
Proof. by intros -> ->. Qed.

Lemma for_each_M_ext {A} (f g : A → M unit) (xs : list A) :
  (∀ x, f x = g x) → for_each_M f xs = for_each_M g xs.
Proof.
  intros Hfg. induction xs as [|x xs IH]; [done|].
  cbn [for_each_M]. apply M_bind_ext; [apply Hfg|]. by intros _.
Qed.

Section language.

Context (c1 c2 : ConfigParser) (Hsame : same_but_language c1 c2).

Lemma same_section_other section :
  section ≠ "Generator" → c1 !! section = c2 !! section.
Proof.
  intros Hne. destruct Hsame as [Hdel _].
  rewrite <- (lookup_delete_ne c1 "Generator" section) by done.
  rewrite <- (lookup_delete_ne c2 "Generator" section) by done.
  by rewrite Hdel.
Qed.

Lemma same_proxy_lookup (g1 g2 : SectionProxy) key :
  delete "language" g1 = delete "language" g2 → key ≠ "language" →
  g1 !! key = g2 !! key.
Proof.
  intros Hdel Hne.
  rewrite <- (lookup_delete_ne g1 "language" key) by done.
  rewrite <- (lookup_delete_ne g2 "language" key) by done.
  by rewrite Hdel.
Qed.

Lemma same_generator_section :
  match c1 !! "Generator", c2 !! "Generator" with
  | Some g1, Some g2 => delete "language" g1 = delete "language" g2
  | None, None => True
  | _, _ => False
  end.
Proof.
  destruct Hsame as [_ Hgen].
  destruct (c1 !! "Generator"), (c2 !! "Generator"); simpl in Hgen; by simplify_eq.
Qed.

Lemma same_has_section section : has_section c1 section = has_section c2 section.
Proof.
  unfold has_section. destruct (decide (section = "Generator")) as [->|Hne].
  - pose proof same_generator_section as H.
    destruct (c1 !! "Generator"), (c2 !! "Generator"); done.
  - by rewrite same_section_other.
Qed.

(** Reading through a section proxy gives the same in both configurations,
    as long as the reader does not look at [language]. *)
Lemma same_read {A} (F : SectionProxy → result A) section :
  (section = "Generator" →
   ∀ g1 g2, delete "language" g1 = delete "language" g2 → F g1 = F g2) →
  (get_section c1 section ≫= F) = (get_section c2 section ≫= F).
Proof.
  intros HF. unfold get_section. destruct (decide (section = "Generator")) as [->|Hne].
  - pose proof same_generator_section as H.
    destruct (c1 !! "Generator"), (c2 !! "Generator"); try done.
    cbn [mbind result_bind]. by apply HF.
  - by rewrite same_section_other.
Qed.

Lemma same_item section key :
  section ≠ "Generator" ∨ key ≠ "language" →
  (get_section c1 section ≫= λ p, get_item p key)
  = (get_section c2 section ≫= λ p, get_item p key).
Proof.
  intros Hne. apply same_read. intros -> g1 g2 Hg. unfold get_item.
  rewrite (same_proxy_lookup g1 g2 key Hg); [done|]. by destruct Hne.
Qed.

Lemma same_getboolean key fallback :
  key ≠ "language" →
  (get_section c1 "Generator" ≫= λ g, getboolean g key fallback)
  = (get_section c2 "Generator" ≫= λ g, getboolean g key fallback).
Proof.
  intros Hne. apply same_read. intros _ g1 g2 Hg. unfold getboolean.
  by rewrite (same_proxy_lookup g1 g2 key Hg).
Qed.

Lemma same_get_fallback key fallback :
  key ≠ "language" →
  (get_section c1 "Generator" ≫= λ g, Ok (get_fallback g key fallback))
  = (get_section c2 "Generator" ≫= λ g, Ok (get_fallback g key fallback)).
Proof.
  intros Hne. apply same_read. intros _ g1 g2 Hg. unfold get_fallback.
  by rewrite (same_proxy_lookup g1 g2 key Hg).
Qed.

Lemma same_attribute_config : _load_attribute_config c1 = _load_attribute_config c2.
Proof.
  unfold _load_attribute_config, get_section.
  by rewrite same_has_section, (same_section_other "Attributes").
Qed.

Lemma same_load_configuration config_file :
  match _load_configuration (Some c1) config_file,
        _load_configuration (Some c2) config_file with
  | Ok a, Ok b => a = c1 ∧ b = c2
  | Raise e1, Raise e2 => e1 = e2
  | _, _ => False
  end.
Proof.
  unfold _load_configuration, required_sections, required_db_params,
    required_gen_params, has_section, get_section, has_option.
  cbn [for_each].
  rewrite (same_section_other "Database") by done.
  pose proof same_generator_section as Hgen.
  destruct (c2 !! "Database") as [d|]; [|done].
  destruct (c1 !! "Generator") as [g1|], (c2 !! "Generator") as [g2|]; try done.
  cbn [mbind result_bind bool_decide negb].
  destruct (d !! "host"); [|done].
  destruct (d !! "database"); [|done].
  destruct (d !! "user"); [|done].
  destruct (d !! "password"); [|done].
  rewrite (same_proxy_lookup g1 g2 "output_directory" Hgen) by done.
  rewrite (same_proxy_lookup g1 g2 "namespace" Hgen) by done.
  destruct (g2 !! "output_directory"); [|done].
  destruct (g2 !! "namespace"); [|done].
  done.
Qed.

End language.

Section same_generator.

Context (s1 s2 : EntityGenerator) (Hsame : same_generator s1 s2).

Lemma same_config_item section key :
  section ≠ "Generator" ∨ key ≠ "language" →
  config_item s1 section key = config_item s2 section key.
Proof.
  intros Hne. unfold config_item. f_equal.
  apply same_item; [apply Hsame|done].
Qed.

Lemma same_class_lines table_name columns :
  class_lines s1 table_name columns = class_lines s2 table_name columns.
Proof.
  destruct Hsame as (Hcfg & _ & Hac & _).
  unfold class_lines. rewrite Hac.
  apply (same_read _ _ Hcfg). intros _ g1 g2 Hg. unfold get_item.
  by rewrite (same_proxy_lookup g1 g2 "namespace" Hg).
Qed.

Lemma same_generate_class table_name columns :
  generate_class s1 table_name columns = generate_class s2 table_name columns.
Proof. unfold generate_class. by rewrite same_class_lines. Qed.

Lemma same_log message : log s1 message = log s2 message.
Proof. destruct Hsame as (_ & _ & _ & Hv & _). unfold log. by rewrite Hv. Qed.

Lemma same_report_error e : report_error s1 e = report_error s2 e.
Proof. unfold report_error. destruct e; apply same_log. Qed.

End same_generator.

Create HintDb language_db discriminated.
#[local] Hint Resolve same_config_item same_generate_class same_log same_report_error
  : language_db.
#[local] Hint Extern 1 (_ ∨ _) => left; discriminate : language_db.

Ltac same_step :=
  match goal with
  | |- _ ≫= _ = _ ≫= _ => apply M_bind_ext; [|intros ?]
  | |- on_error _ _ = on_error _ _ => apply on_error_ext; [|intros ?]
  | |- finally _ _ = finally _ _ => apply finally_ext
  | |- for_each_M _ _ = for_each_M _ _ => apply for_each_M_ext; intros ?
  | |- lift _ = lift _ => f_equal
  | |- call _ _ = call _ _ => f_equal
  | |- (if ?b then _ else _) = (if ?b then _ else _) => destruct b
  | |- _ => reflexivity
  | |- _ => solve [eauto with language_db]
  end.

Lemma same_generate_entities (w1 w2 : World) (s1 s2 : EntityGenerator) :
  same_generator s1 s2 →
  same_outside w1 w2 →
  generate_entities w1 s1 = generate_entities w2 s2.
Proof.
  intros Hsame (Hconnect & Hnow & _ & Hwrite & Hunbound).
  pose proof Hsame as (_ & Hdir & _ & _ & Hsql & Hfile).
  assert (Htables : ∀ cursor, get_tables s1 cursor = get_tables s2 cursor).
  { intros cursor. unfold get_tables. repeat same_step. }
  assert (Hcolumns : ∀ cursor t, get_columns s1 cursor t = get_columns s2 cursor t).
  { intros cursor t. unfold get_columns. repeat same_step. }
  assert (Hconn : get_connection w1 s1 = get_connection w2 s2).
  { unfold get_connection. repeat same_step.
    destruct e; try done. eauto with language_db. }
  assert (Hscript : ∀ cursor,
            generate_sql_script w1 s1 cursor = generate_sql_script w2 s2 cursor).
  { intros cursor. unfold generate_sql_script. rewrite Hnow. repeat same_step.
    destruct Hsame as (_ & _ & _ & Hv & _). unfold log. by rewrite Hv. }
  assert (Htable : ∀ cursor t,
            process_table w1 s1 cursor t = process_table w2 s2 cursor t).
  { intros cursor t. unfold process_table. rewrite Hdir. repeat same_step. }
  assert (Hcursor : ∀ conn, get_cursor s1 conn = get_cursor s2 conn).
  { intros conn. unfold get_cursor. repeat same_step. }
  assert (Hwork : ∀ cursor, with_cursor w1 s1 cursor = with_cursor w2 s2 cursor).
  { intros cursor. unfold with_cursor. rewrite Hdir, Hsql, Hfile. repeat same_step. }
  assert (Hafter : ∀ conn, with_connection w1 s1 conn = with_connection w2 s2 conn).
  { intros conn. unfold with_connection.
    assert (Hstep : on_error (get_cursor s1 conn) (report_error s1)
                    = on_error (get_cursor s2 conn) (report_error s2))
      by repeat same_step.
    assert (Hrelease : ∀ cursor, release w1 s1 conn cursor = release w2 s2 conn cursor).
    { intros [cursor|]; unfold release; [repeat same_step|by rewrite Hunbound]. }
    rewrite Hstep.
    destruct (on_error (get_cursor s2 conn) (report_error s2)) as [t [cursor|e]];
      repeat same_step. }
  unfold generate_entities. repeat same_step.
Qed.

Lemma same_init (w1 w2 : World) (config_file : string) :
  same_but_language_file (config_files w1 config_file) (config_files w2 config_file) →
  same_outside w1 w2 →
  trace (__init__ w1 config_file) = trace (__init__ w2 config_file)
  ∧ match outcome (__init__ w1 config_file), outcome (__init__ w2 config_file) with
    | Ok s1, Ok s2 => same_generator s1 s2
    | Raise e1, Raise e2 => e1 = e2
    | _, _ => False
    end.
Proof.
  unfold __init__.
  destruct (config_files w1 config_file) as [c1|], (config_files w2 config_file) as [c2|];
    try done.
  intros Hsame (_ & _ & Hdirs & _). cbn [same_but_language_file] in Hsame.
  pose proof (same_load_configuration c1 c2 Hsame config_file) as Hload.
  destruct (_load_configuration (Some c1) config_file) as [a|e1],
    (_load_configuration (Some c2) config_file) as [b|e2]; try done.
  destruct Hload as [-> ->]. rewrite !lift_bind_Ok.
  rewrite (same_item c1 c2 Hsame "Generator" "output_directory") by (right; done).
  destruct (get_section c2 "Generator" ≫= λ p, get_item p "output_directory")
    as [dir|e]; [|done].
  rewrite !lift_bind_Ok, (same_attribute_config c1 c2 Hsame).
  destruct (_load_attribute_config c2) as [ac|e]; [|done].
  rewrite !lift_bind_Ok, (same_getboolean c1 c2 Hsame "verbose") by done.
  destruct (get_section c2 "Generator" ≫= λ g, getboolean g "verbose" true)
    as [v|e]; [|done].
  rewrite !lift_bind_Ok, (same_getboolean c1 c2 Hsame "generate_sql") by done.
  destruct (get_section c2 "Generator" ≫= λ g, getboolean g "generate_sql" false)
    as [sql|e]; [|done].
  rewrite !lift_bind_Ok, (same_get_fallback c1 c2 Hsame "sql_output_file") by done.
  destruct (get_section c2 "Generator"
            ≫= λ g, Ok (get_fallback g "sql_output_file" "database_structure.sql"))
    as [file|e]; [|done].
  rewrite !lift_bind_Ok. unfold log, call. cbn [verbose]. rewrite (Hdirs dir).
  destruct (makedirs w2 dir), v; cbn; (split; [done|try done]);
    (split; [exact Hsame|done]).
Qed.

Lemma same_run (w1 w2 : World) (config_file : string) :
  same_but_language_file (config_files w1 config_file) (config_files w2 config_file) →
  same_outside w1 w2 →
  (generator ← __init__ w1 config_file; generate_entities w1 generator)
  = (generator ← __init__ w2 config_file; generate_entities w2 generator).
Proof.
  intros Hfile Hout.
  destruct (same_init w1 w2 config_file Hfile Hout) as [Ht Ho].
  unfold trace, outcome in *.
  destruct (__init__ w1 config_file) as [t1 [s1|e1]],
    (__init__ w2 config_file) as [t2 [s2|e2]]; cbn [fst snd] in *; try done.
  - cbn [mbind M_bind].
    by rewrite (same_generate_entities w1 w2 s1 s2 Ho Hout), Ht.
  - by subst.
Qed.

Lemma append_assoc (a b c : string) : (a +:+ b) +:+ c = a +:+ (b +:+ c).
Proof.
  induction a as [|x a IH]; [done|].
  change (String x ((a +:+ b) +:+ c) = String x (a +:+ (b +:+ c))). by rewrite IH.
Qed.

Lemma path_join_cases (a b : string) :
  Py.path_join a b = b ∨ Py.path_join a b = a +:+ b
  ∨ Py.path_join a b = a +:+ "/" +:+ b.
Proof. unfold Py.path_join. repeat case_match; auto. Qed.

Lemma path_join_suffix (a b suffix : string) :
  ∃ stem, Py.path_join a (b +:+ suffix) = stem +:+ suffix.
Proof.
  destruct (path_join_cases a (b +:+ suffix)) as [->|[->| ->]].
  - by exists b.
  - exists (a +:+ b). by rewrite append_assoc.
  - exists (a +:+ "/" +:+ b). by rewrite !append_assoc.
Qed.

Ltac in_trace H :=
  repeat match type of H with
  | _ ∈ [] => by apply elem_of_nil in H
  | _ ∈ _ :: _ => apply elem_of_cons in H as [H|H]; [try discriminate H|]
  end.

Lemma process_table_writes w self cursor table path content :
  WriteFile path content ∈ trace (process_table w self cursor table) →
  path = Py.path_join (output_dir self) (entity_file_name table)
  ∧ generate_class self table
      (columns_of_rows
         (column_rows cursor
            (default "" (lookup_option (config self) "Database" "database")) table))
    = Ok content.
Proof.
  unfold process_table, get_columns, config_item, log, call, trace, lookup_option,
    get_section, get_item.
  destruct (config self !! "Database") as [d|]; cbn [mbind result_bind option_bind].
  2: { destruct (verbose self); cbn; intros H; in_trace H. }
  destruct (d !! "database") as [database|]; cbn [default].
  2: { destruct (verbose self); cbn; intros H; in_trace H. }
  destruct (verbose self); cbn;
    (destruct (generate_class self table
                 (columns_of_rows (column_rows cursor database table))) as [text|e]);
    cbn; try (intros H; by in_trace H);
    (destruct (write_file w
                 (Py.path_join (output_dir self) (entity_file_name table)) text));
    cbn; intros H; in_trace H; by injection H as -> ->.
Qed.

Lemma same_but_language_with_language (c : ConfigParser) (v1 v2 : string) :
  same_but_language (with_language v1 c) (with_language v2 c).
Proof.
  unfold same_but_language, with_language. split.
  - by rewrite !delete_alter_eq.
  - rewrite !lookup_alter_eq. destruct (c !! "Generator") as [g|]; [|done].
    cbn. by rewrite !delete_insert_eq.
Qed.

(** C10 (as amended).  The program never reads [Generator.language] itself.
    Two runs whose configurations, as the section proxies yield them, differ
    at most in the value (or the presence) of that option, in worlds that
    answer every call alike, do exactly the same: same messages, same files
    with the same names and the same text, same outcome.  The class text is
    the same for any two generator objects built from such configurations,
    and every file [process_table] writes has a name ending in [.cs]. *)
Theorem language_setting_ignored (w1 w2 : World) (argv : list string) :
  (∀ path, same_but_language_file (config_files w1 path) (config_files w2 path)) →
  same_outside w1 w2 →
  main w1 argv = main w2 argv
  ∧ (∀ s1 s2 table columns,
       same_generator s1 s2 →
       generate_class s1 table columns = generate_class s2 table columns)
  ∧ (∀ w self cursor table path content,
       WriteFile path content ∈ trace (process_table w self cursor table) →
       ∃ stem, path = stem +:+ ".cs").
Proof.
  intros Hfiles Hout. split; [|split].
  - unfold main.
    set (config_file := match argv with _ :: a :: _ => a | _ => "database_config.ini" end).
    pose proof (Hfiles config_file) as Hfile.
    pose proof (same_run w1 w2 config_file Hfile Hout) as Hrun.
    destruct Hout as (_ & _ & _ & Hwrite & _).
    destruct (config_files w1 config_file), (config_files w2 config_file); try done.
    + by rewrite Hrun.
    + unfold create_default_config. by rewrite Hwrite.
  - intros s1 s2 table columns Hsame. by apply same_generate_class.
  - intros w self cursor table path content [-> _]%process_table_writes.
    apply path_join_suffix.
Qed.

Lemma language_setting_ignored_witness :
  main (world_of (with_language "csharp" full_config)) ["entity_generator.py"]
  = main (world_of (with_language "java" full_config)) ["entity_generator.py"].
Proof.
  apply (language_setting_ignored
           (world_of (with_language "csharp" full_config))
           (world_of (with_language "java" full_config))).
  - intros path. apply same_but_language_with_language.
  - by repeat split.
Defined.

(** C10, as stated, fails.  The parser interpolates, so a value may refer to
    the language option.  Two [Generator] sections whose text differs only
    in the value of [language] are seen with different namespaces, and the
    rendered class and the whole run differ with them. *)
Lemma language_reaches_namespace :
  delete "language" (generator_text "csharp") = delete "language" (generator_text "java")
  ∧ Interpolation.presents (generator_text "csharp") (generator_seen "csharp")
  ∧ Interpolation.presents (generator_text "java") (generator_seen "java")
  ∧ generate_class (generator_of (referring_config "csharp") all_on) "orders" []
    ≠ generate_class (generator_of (referring_config "java") all_on) "orders" []
  ∧ main (world_of (referring_config "csharp")) ["entity_generator.py"]
    ≠ main (world_of (referring_config "java")) ["entity_generator.py"].
Proof.
  split; [vm_compute; exact eq_refl|].
  split; [vm_compute; exact eq_refl|].
  split; [vm_compute; exact eq_refl|].
  split; vm_compute; discriminate.
Qed.

(** * Further properties *)

(** ** The casing transform, continued *)

Lemma split_append_sep sep a b :
  Py.split sep (a +:+ String sep b) = Py.split sep a ++ Py.split sep b.
Proof.
  induction a as [|c a IH].
  - change (EmptyString +:+ String sep b) with (String sep b).
    cbn [Py.split]. by rewrite Ascii.eqb_refl.
  - change (String c a +:+ String sep b) with (String c (a +:+ String sep b)).
    cbn [Py.split]. rewrite IH.
    destruct (Ascii.eqb c sep); [done|].
    pose proof (split_nonempty sep a) as Hne.
    by destruct (Py.split sep a).
Qed.

Lemma append_nil_r (s : string) : s +:+ "" = s.
Proof.
  induction s as [|c s IH]; [done|].
  change (String c (s +:+ "") = String c s). by rewrite IH.
Qed.

Lemma join_empty_cons w ws : Py.join "" (w :: ws) = w +:+ Py.join "" ws.
Proof.
  unfold Py.join. destruct ws as [|w' ws]; cbn [String.concat].
  - by rewrite append_nil_r.
  - done.
Qed.

Lemma join_empty_app ws1 ws2 :
  Py.join "" (ws1 ++ ws2) = Py.join "" ws1 +:+ Py.join "" ws2.
Proof.
  induction ws1 as [|w ws1 IH]; [done|].
  change ((w :: ws1) ++ ws2) with (w :: (ws1 ++ ws2)).
  by rewrite !join_empty_cons, IH, append_assoc.
Qed.

(** X1.  The transform works segment by segment: an underscore between two
    strings just disappears, whatever surrounds it. *)
Theorem to_pascal_case_underscore (a b : string) :
  to_pascal_case (a +:+ "_" +:+ b) = to_pascal_case a +:+ to_pascal_case b.
Proof.
  unfold to_pascal_case.
  change ("_" +:+ b) with (String "_" b).
  by rewrite split_append_sep, map_app, join_empty_app.
Qed.

Section casing_more.

Local Ltac by_cases c := destruct c as [[] [] [] [] [] [] [] []]; reflexivity.

Lemma to_upper_to_lower c : Py.to_upper (Py.to_lower c) = Py.to_upper c.
Proof. by_cases c. Qed.

End casing_more.

Lemma do_title_lower s : ∀ b, Py.do_title b (Py.lower s) = Py.do_title b s.
Proof.
  induction s as [|c s IH]; intros b; [done|].
  cbn [Py.lower Py.do_title]. rewrite IH, is_cased_to_lower.
  destruct b; by rewrite ?to_lower_idem, ?to_upper_to_lower.
Qed.

Lemma split_lower s :
  Py.split "_" (Py.lower s) = map Py.lower (Py.split "_" s).
Proof.
  induction s as [|c s IH]; [done|].
  cbn [Py.lower Py.split]. rewrite to_lower_underscore, IH.
  destruct (Ascii.eqb c "_"); [done|].
  pose proof (split_nonempty "_" s) as Hne.
  by destruct (Py.split "_" s).
Qed.

(** X2.  The transform does not depend on the letter case of its input: on ASCII
    text, lowering the input first changes nothing. *)
Theorem to_pascal_case_ignores_case (s : string) :
  Py.isascii s = true →
  to_pascal_case (Py.lower s) = to_pascal_case s.
Proof.
  intros _. unfold to_pascal_case. rewrite split_lower, map_map. f_equal.
  apply map_ext. intros w. apply do_title_lower.
Qed.

Lemma to_pascal_case_ignores_case_witness :
  to_pascal_case (Py.lower "ORDER_Items") = to_pascal_case "ORDER_Items".
Proof.
  apply (to_pascal_case_ignores_case "ORDER_Items"). vm_compute. reflexivity.
Defined.

Lemma length_append (s t : string) :
  String.length (s +:+ t) = (String.length s + String.length t)%nat.
Proof.
  induction s as [|c s IH]; [done|].
  change (String c s +:+ t) with (String c (s +:+ t)). cbn [String.length].
  by rewrite IH.
Qed.

Lemma length_do_title s : ∀ b, String.length (Py.do_title b s) = String.length s.
Proof. induction s as [|c s IH]; intros b; [done|]. cbn. by rewrite IH. Qed.

Lemma length_join_title ws :
  String.length (Py.join "" (map Py.title ws))
  = String.length (Py.join "" ws).
Proof.
  induction ws as [|w ws IH]; [done|].
  cbn [map]. rewrite !join_empty_cons, !length_append, IH.
  unfold Py.title. by rewrite length_do_title.
Qed.

Lemma length_join_split s :
  (String.length (Py.join "" (Py.split "_" s)) + Py.count_char "_" s)%nat
  = String.length s.
Proof.
  induction s as [|c s IH]; [done|].
  cbn [Py.split Py.count_char String.length].
  destruct (Ascii.eqb c "_").
  - rewrite join_empty_cons. change ("" +:+ ?x) with x. lia.
  - pose proof (split_nonempty "_" s) as Hne.
    destruct (Py.split "_" s) as [|w ws]; [done|].
    rewrite join_empty_cons in *.
    change (String c w +:+ ?x) with (String c (w +:+ x)).
    cbn [String.length]. lia.
Qed.

(** X3.  On ASCII text the output holds no underscore, and it is as long as the
    input without its underscores: no other character is dropped or added.
    (Outside ASCII [str.title] can change the length of a word.) *)
Theorem to_pascal_case_drops_underscores_only (s : string) :
  Py.isascii s = true →
  Py.has_char "_" (to_pascal_case s) = false
  ∧ (String.length (to_pascal_case s) + Py.count_char "_" s)%nat = String.length s.
Proof.
  intros _. split; [apply to_pascal_case_no_underscore|].
  unfold to_pascal_case. rewrite length_join_title. apply length_join_split.
Qed.

Lemma to_pascal_case_drops_underscores_only_witness :
  Py.has_char "_" (to_pascal_case "order_line_items") = false
  ∧ (String.length (to_pascal_case "order_line_items")
     + Py.count_char "_" "order_line_items")%nat
    = String.length "order_line_items".
Proof.
  apply (to_pascal_case_drops_underscores_only "order_line_items").
  vm_compute. reflexivity.
Defined.

(** ** The schema reader, continued *)

Lemma int_of_digits_acc (d : Decimal.uint) (p : positive) :
  fold_left (λ acc c, 10 * acc + Z.of_N (Py.ord c - 48))
            (list_ascii_of_string (NilEmpty.string_of_uint d)) (Z.pos p)
  = Z.pos (Pos.of_uint_acc d p).
Proof.
  revert p. induction d; intros p; cbn [NilEmpty.string_of_uint list_ascii_of_string
    fold_left Pos.of_uint_acc]; [done|..];
    (etransitivity; [|apply IHd]); f_equal; vm_compute Z.of_N; lia.
Qed.

Lemma int_of_digits_uint (d : Decimal.uint) :
  Py.int_of_digits (NilEmpty.string_of_uint d) = Z.of_N (Pos.of_uint d).
Proof.
  unfold Py.int_of_digits.
  induction d; cbn [NilEmpty.string_of_uint list_ascii_of_string fold_left Pos.of_uint];
    [done|exact IHd|..]; apply (int_of_digits_acc d).
Qed.

Lemma str_of_int_digits (n : Z) :
  0 ≤ n →
  ∃ d, Py.str_of_int n = NilEmpty.string_of_uint d ∧ d ≠ Decimal.Nil
       ∧ Z.of_N (Pos.of_uint d) = n.
Proof.
  intros Hn. destruct n as [|p|p]; [| |lia].
  - by exists (Decimal.D0 Decimal.Nil).
  - exists (Pos.to_uint p). split; [|split].
    + unfold Py.str_of_int. cbn [Z.to_int NilZero.string_of_int NilZero.string_of_uint].
      pose proof (DecimalPos.Unsigned.to_uint_nonnil p). by destruct (Pos.to_uint p).
    + apply DecimalPos.Unsigned.to_uint_nonnil.
    + by rewrite DecimalPos.Unsigned.of_to.
Qed.

Lemma int_of_digits_str_of_int (n : Z) :
  0 ≤ n → Py.int_of_digits (Py.str_of_int n) = n.
Proof.
  intros Hn. destruct (str_of_int_digits n Hn) as (d & -> & _ & <-).
  apply int_of_digits_uint.
Qed.

Lemma span_digits_uint (d : Decimal.uint) (rest : string) :
  Py.span_digits (NilEmpty.string_of_uint d +:+ String ")" rest)
  = (NilEmpty.string_of_uint d, String ")" rest).
Proof.
  induction d; cbn [NilEmpty.string_of_uint]; [done|..];
    match goal with
    | |- context [String ?c ?s +:+ ?t] =>
        change (String c s +:+ t) with (String c (s +:+ t))
    end;
    cbn [Py.span_digits]; rewrite IHd; reflexivity.
Qed.

Lemma strip_prefix_append (p s : string) : Py.strip_prefix p (p +:+ s) = Some s.
Proof.
  induction p as [|a p IH]; [by destruct s|].
  change (String a p +:+ s) with (String a (p +:+ s)).
  cbn [Py.strip_prefix]. by rewrite Ascii.eqb_refl.
Qed.

Lemma search_width_at_start (lit : string) (n : Z) (rest : string) :
  0 ≤ n →
  Py.search_width lit (lit +:+ "(" +:+ Py.str_of_int n +:+ ")" +:+ rest)
  = Some (Py.str_of_int n).
Proof.
  intros Hn. destruct (str_of_int_digits n Hn) as (d & -> & Hd & _).
  assert (Hhere : Py.match_width_here lit
            (lit +:+ "(" +:+ NilEmpty.string_of_uint d +:+ ")" +:+ rest)
          = Some (NilEmpty.string_of_uint d)).
  { unfold Py.match_width_here.
    rewrite <- (append_assoc lit "("), strip_prefix_append.
    change (")" +:+ rest) with (String ")" rest). rewrite span_digits_uint.
    by destruct d. }
  destruct (lit +:+ "(" +:+ NilEmpty.string_of_uint d +:+ ")" +:+ rest);
    cbn [Py.search_width]; by rewrite Hhere.
Qed.

Lemma contains_prefix (sub tail : string) : Py.contains sub (sub +:+ tail) = true.
Proof.
  pose proof (prefix_append sub tail) as H.
  destruct (sub +:+ tail); cbn [Py.contains]; by rewrite H.
Qed.

Lemma int_of_digits_nonneg (ds : string) : 0 ≤ Py.int_of_digits ds.
Proof.
  unfold Py.int_of_digits.
  cut (∀ l acc, 0 ≤ acc →
         0 ≤ fold_left (λ acc c, 10 * acc + Z.of_N (Py.ord c - 48)) l acc).
  { intros H. by apply H. }
  induction l as [|c l IH]; intros acc Hacc; [done|].
  cbn [fold_left]. apply IH. lia.
Qed.

Lemma column_of_row_tinyint_width (row : Row) (n : Z) (rest : string) :
  0 ≤ n →
  Py.lower (COLUMN_TYPE row) = "tinyint(" +:+ Py.str_of_int n +:+ ")" +:+ rest →
  max_length (column_of_row row) = Some n.
Proof.
  intros Hn Hct. unfold column_of_row. cbn [max_length]. rewrite Hct.
  change ("tinyint(" +:+ ?x) with ("tinyint" +:+ "(" +:+ x).
  rewrite (search_width_at_start "tinyint" n rest Hn).
  rewrite int_of_digits_str_of_int by done.
  by rewrite contains_prefix.
Qed.

(** X4.  A declared width [tinyint(n)] is read back as the number [n], whatever
    follows the closing parenthesis ([unsigned], [zerofill], ...); the
    character length of the catalog row plays no part. *)
Theorem tinyint_width_is_parsed (row : Row) (n : Z) (rest : string) :
  0 ≤ n →
  Py.lower (COLUMN_TYPE row) = "tinyint(" +:+ Py.str_of_int n +:+ ")" +:+ rest →
  max_length (column_of_row row) = Some n.
Proof.
  apply column_of_row_tinyint_width.
Qed.

Lemma tinyint_width_is_parsed_witness :
  max_length (column_of_row
    {| COLUMN_NAME := "rating"; DATA_TYPE := "tinyint"; IS_NULLABLE := "NO";
       COLUMN_KEY := ""; EXTRA := ""; CHARACTER_MAXIMUM_LENGTH := None;
       NUMERIC_PRECISION := Some 3; NUMERIC_SCALE := Some 0;
       COLUMN_TYPE := "TINYINT(3) UNSIGNED" |}) = Some 3.
Proof.
  apply (tinyint_width_is_parsed _ 3 " unsigned"); [lia|].
  vm_compute. reflexivity.
Defined.

(** X5.  Reader and mapper together: a [tinyint(1)] column of the catalog becomes
    [bool] ([bool?] when the row says it is nullable), and a [tinyint] of any
    other declared width becomes [byte] ([byte?]). *)
Theorem tinyint_rows_map_to_bool_or_byte (row : Row) (n : Z) (rest : string) :
  0 ≤ n →
  Py.lower (DATA_TYPE row) = "tinyint" →
  Py.lower (COLUMN_TYPE row) = "tinyint(" +:+ Py.str_of_int n +:+ ")" +:+ rest →
  get_csharp_type (column_of_row row)
  = (if bool_decide (n = 1) then "bool" else "byte")
    +:+ (if bool_decide (IS_NULLABLE row = "YES") then "?" else "").
Proof.
  intros Hn Hdt Hct.
  pose proof (column_of_row_tinyint_width row n rest Hn Hct) as Hlen.
  unfold get_csharp_type. rewrite Hlen.
  change (data_type (column_of_row row)) with (DATA_TYPE row).
  change (is_nullable (column_of_row row)) with (bool_decide (IS_NULLABLE row = "YES")).
  rewrite Hdt, (bool_decide_eq_true_2 ("tinyint" = "tinyint")) by done.
  cbn [andb].
  destruct (decide (n = 1)) as [->|Hne].
  - rewrite !bool_decide_eq_true_2 by done.
    by destruct (bool_decide (IS_NULLABLE row = "YES")).
  - rewrite (bool_decide_eq_false_2 (Some n = Some 1)) by congruence.
    rewrite (bool_decide_eq_false_2 (n = 1)) by done.
    replace (type_mapping !! "tinyint") with (Some "byte") by (by vm_compute).
    cbn [default].
    rewrite (bool_decide_eq_false_2 ("byte" = "string")) by discriminate.
    by destruct (bool_decide (IS_NULLABLE row = "YES")).
Qed.

Lemma tinyint_rows_map_to_bool_or_byte_witness :
  get_csharp_type (column_of_row
    {| COLUMN_NAME := "is_paid"; DATA_TYPE := "tinyint"; IS_NULLABLE := "YES";
       COLUMN_KEY := ""; EXTRA := ""; CHARACTER_MAXIMUM_LENGTH := None;
       NUMERIC_PRECISION := Some 3; NUMERIC_SCALE := Some 0;
       COLUMN_TYPE := "tinyint(1)" |}) = "bool?".
Proof.
  refine (eq_trans (tinyint_rows_map_to_bool_or_byte _ 1 "" _ _ _) _);
    [lia|vm_compute; reflexivity..].
Defined.

(** X6.  Where the width comes from.  If the column type does not mention
    [tinyint], [max_length] is the catalog's character length as it is.  If
    it does, the character length is never used: [max_length] is a parsed,
    non-negative width or nothing. *)
Theorem max_length_source (row : Row) :
  (Py.contains "tinyint" (Py.lower (COLUMN_TYPE row)) = false →
   max_length (column_of_row row) = CHARACTER_MAXIMUM_LENGTH row)
  ∧ (Py.contains "tinyint" (Py.lower (COLUMN_TYPE row)) = true →
     (max_length (column_of_row row) = None
      ∨ ∃ n, 0 ≤ n ∧ max_length (column_of_row row) = Some n)
     ∧ ∀ len, max_length (column_of_row row)
              = max_length (column_of_row
                  {| COLUMN_NAME := COLUMN_NAME row; DATA_TYPE := DATA_TYPE row;
                     IS_NULLABLE := IS_NULLABLE row; COLUMN_KEY := COLUMN_KEY row;
                     EXTRA := EXTRA row; CHARACTER_MAXIMUM_LENGTH := len;
                     NUMERIC_PRECISION := NUMERIC_PRECISION row;
                     NUMERIC_SCALE := NUMERIC_SCALE row;
                     COLUMN_TYPE := COLUMN_TYPE row |})).
Proof.
  unfold column_of_row. cbn [max_length COLUMN_TYPE CHARACTER_MAXIMUM_LENGTH].
  split; intros ->; [done|]. split; [|done].
  destruct (Py.search_width "tinyint" (Py.lower (COLUMN_TYPE row))) as [ds|]; [|by left].
  right. eexists. split; [apply int_of_digits_nonneg|done].
Qed.

Lemma max_length_source_witness :
  max_length (column_of_row
    {| COLUMN_NAME := "kind"; DATA_TYPE := "enum"; IS_NULLABLE := "NO";
       COLUMN_KEY := ""; EXTRA := ""; CHARACTER_MAXIMUM_LENGTH := Some 7;
       NUMERIC_PRECISION := None; NUMERIC_SCALE := None;
       COLUMN_TYPE := "enum('tinyint','int')" |}) = None
  ∨ ∃ n, 0 ≤ n ∧
      max_length (column_of_row
        {| COLUMN_NAME := "kind"; DATA_TYPE := "enum"; IS_NULLABLE := "NO";
           COLUMN_KEY := ""; EXTRA := ""; CHARACTER_MAXIMUM_LENGTH := Some 7;
           NUMERIC_PRECISION := None; NUMERIC_SCALE := None;
           COLUMN_TYPE := "enum('tinyint','int')" |}) = Some n.
Proof.
  apply (max_length_source
    {| COLUMN_NAME := "kind"; DATA_TYPE := "enum"; IS_NULLABLE := "NO";
       COLUMN_KEY := ""; EXTRA := ""; CHARACTER_MAXIMUM_LENGTH := Some 7;
       NUMERIC_PRECISION := None; NUMERIC_SCALE := None;
       COLUMN_TYPE := "enum('tinyint','int')" |}).
  vm_compute. reflexivity.
Defined.

(** ** The entity renderer, continued *)

(** X7.  The using lines are exactly those the toggles call for, in one fixed
    order: the [Schema] declaration when one of column, table or
    database-generated is on, the [DataAnnotations] declaration when one of
    key, required or max-length is on, and [System] always, last. *)
Theorem using_lines_follow_toggles (ac : AttributeConfig) :
  Py.sorted (using_statements ac)
  = (if use_column ac || use_table ac || use_database_generated ac
     then ["using System.ComponentModel.DataAnnotations.Schema;"] else [])
    ++ (if use_key ac || use_required ac || use_maxlength ac
        then ["using System.ComponentModel.DataAnnotations;"] else [])
    ++ ["using System;"].
Proof. destruct ac as [[] [] [] [] [] []]; vm_compute; reflexivity. Qed.

(** X8.  The whole text of a class, and the two ways rendering can fail: without
    a [Generator] section or without a [namespace] in it a [KeyError] is
    raised; otherwise the text is the using lines, a blank line, the
    namespace opening, the table attribute if its toggle is on, the class
    opening, for each column its attribute lines, its declaration and a
    blank line, and the two closing braces, joined by newlines.  With no
    columns the class body is empty. *)
Theorem class_text_structure (self : EntityGenerator) (table_name : string)
    (columns : list ColumnInfo) :
  generate_class self table_name columns
  = match config self !! "Generator" with
    | None => Raise (KeyError "Generator")
    | Some generator =>
        match generator !! "namespace" with
        | None => Raise (KeyError "namespace")
        | Some namespace =>
            Ok (Py.join newline
                  (Py.sorted (using_statements (attribute_config self))
                   ++ [""; "namespace " +:+ namespace; "{"]
                   ++ (if use_table (attribute_config self)
                       then ["    [Table(" +:+ dquote +:+ table_name +:+ dquote +:+ ")]"]
                       else [])
                   ++ ["    public class " +:+ to_pascal_case table_name; "    {"]
                   ++ flat_map (λ column,
                         column_attributes (attribute_config self) column
                         ++ [property_line column; ""]) columns
                   ++ ["    }"; "}"]))
        end
    end.
Proof.
  unfold generate_class.
  destruct (config self !! "Generator") as [g|] eqn:Hg.
  - destruct (g !! "namespace") as [ns|] eqn:Hns.
    + rewrite (class_lines_shape self table_name columns ns)
        by (unfold lookup_option; by rewrite Hg).
      cbn [fmap result_fmap]. unfold preamble, closing.
      by rewrite <- !app_assoc.
    + unfold class_lines, get_section, get_item. rewrite Hg.
      cbn [mbind result_bind]. by rewrite Hns.
  - unfold class_lines, get_section. by rewrite Hg.
Qed.

Lemma attribute_text_inj (column : ColumnInfo) (k k' : attribute_kind) :
  attribute_text column k = attribute_text column k' → k = k'.
Proof.
  destruct k, k'; try done; intros H; vm_compute in H; discriminate H.
Qed.

Lemma fixed_order_complete (k : attribute_kind) : In k fixed_order.
Proof. destruct k; cbn; tauto. Qed.

Lemma fixed_order_NoDup : List.NoDup fixed_order.
Proof.
  unfold fixed_order.
  repeat (apply List.NoDup_cons; [cbn; intuition discriminate|]).
  apply List.NoDup_nil.
Qed.

Lemma NoDup_map_inj {A B} (f : A → B) (l : list A) :
  (∀ x y, f x = f y → x = y) → List.NoDup l → List.NoDup (map f l).
Proof.
  intros Hinj. induction 1 as [|x l Hx _ IH]; cbn; constructor; [|done].
  rewrite in_map_iff. intros (y & Hy & Hin). apply Hinj in Hy. by subst.
Qed.

(** X9.  Each of the five attribute lines is there exactly when its precondition
    on the column holds and its toggle is on, and no line comes twice.  In
    particular the required marker depends on the native type name being
    different from the word [string], and the max-length constraint on the
    native type name being exactly [varchar] or [char] with a non-zero
    length. *)
Theorem attribute_line_conditions (ac : AttributeConfig) (column : ColumnInfo)
    (k : attribute_kind) :
  (In (attribute_text column k) (column_attributes ac column)
   ↔ precondition column k = true ∧ toggle ac k = true)
  ∧ List.NoDup (column_attributes ac column).
Proof.
  rewrite column_attributes_fixed_order. split.
  - rewrite in_map_iff. split.
    + intros (k' & Heq & Hin). apply attribute_text_inj in Heq as ->.
      apply filter_In in Hin as [_ Hin]. by apply andb_true_iff in Hin.
    + intros [Hp Ht]. exists k. split; [done|].
      apply filter_In. split; [apply fixed_order_complete|].
      unfold emitted. by rewrite Hp, Ht.
  - apply NoDup_map_inj.
    + intros k1 k2. apply attribute_text_inj.
    + apply List.NoDup_filter, fixed_order_NoDup.
Qed.

(** ** Loading the configuration, continued *)

(** X10.  [_load_configuration] succeeds exactly when the file exists and holds the
    six required options, and it then returns the configuration as read:
    further sections and options are accepted as they are. *)
Theorem load_configuration_accepts (file : option ConfigParser) (config_file : string)
    (config : ConfigParser) :
  _load_configuration file config_file = Ok config
  ↔ file = Some config
    ∧ ∀ section key, (section, key) ∈ required_options →
                     is_Some (lookup_option config section key).
Proof.
  split.
  - destruct file as [c|]; [|done]. intros Hok.
    destruct (_load_configuration_cases c config_file) as [[Hc Hall]|[msg Hmsg]];
      [|congruence].
    assert (c = config) as -> by congruence. split; [done|].
    intros section key Hin. rewrite Forall_forall in Hall. apply (Hall _ Hin).
  - intros [-> Hall].
    destruct (_load_configuration_cases config config_file) as [[Hc _]|[msg Hmsg]];
      [done|]. exfalso. revert Hmsg.
    pose proof (Hall "Database" "host") as H1.
    pose proof (Hall "Database" "database") as H2.
    pose proof (Hall "Database" "user") as H3.
    pose proof (Hall "Database" "password") as H4.
    pose proof (Hall "Generator" "output_directory") as H5.
    pose proof (Hall "Generator" "namespace") as H6.
    unfold required_options in *. rewrite !elem_of_cons in *.
    unfold lookup_option in *.
    destruct H1 as [? H1]; [tauto|]. destruct H2 as [? H2]; [tauto|].
    destruct H3 as [? H3]; [tauto|]. destruct H4 as [? H4]; [tauto|].
    destruct H5 as [? H5]; [tauto|]. destruct H6 as [? H6]; [tauto|].
    unfold _load_configuration, required_sections, required_db_params,
      required_gen_params, has_section, get_section, has_option.
    cbn [for_each].
    destruct (config !! "Database") as [d|]; [|done].
    destruct (config !! "Generator") as [g|]; [|done].
    cbn [mbind option_bind result_bind] in *. rewrite H1, H2, H3, H4, H5, H6. done.
Qed.

(** X11.  Which error is reported.  A missing file comes first, then a missing
    section, then the first missing database parameter, and only when the
    database parameters are complete a missing generator parameter. *)
Theorem load_configuration_error_order (config : ConfigParser) (config_file : string) :
  _load_configuration None config_file
  = Raise (ConfigurationError ("Configuration file not found: " +:+ config_file))
  ∧ (config !! "Database" = None →
     _load_configuration (Some config) config_file
     = Raise (ConfigurationError "Missing required section: Database"))
  ∧ (is_Some (config !! "Database") → config !! "Generator" = None →
     _load_configuration (Some config) config_file
     = Raise (ConfigurationError "Missing required section: Generator"))
  ∧ (is_Some (config !! "Generator") →
     ∀ before param after,
       required_db_params = before ++ param :: after →
       (∀ p, p ∈ before → is_Some (lookup_option config "Database" p)) →
       config !! "Database" ≫= (.!! param) = None →
       is_Some (config !! "Database") →
       _load_configuration (Some config) config_file
       = Raise (ConfigurationError
                  ("Missing required database parameter: " +:+ param)))
  ∧ (∀ before param after,
       required_gen_params = before ++ param :: after →
       (∀ p, p ∈ required_db_params → is_Some (lookup_option config "Database" p)) →
       (∀ p, p ∈ before → is_Some (lookup_option config "Generator" p)) →
       is_Some (config !! "Generator") →
       config !! "Generator" ≫= (.!! param) = None →
       _load_configuration (Some config) config_file
       = Raise (ConfigurationError
                  ("Missing required generator parameter: " +:+ param))).
Proof.
  split; [done|].
  unfold _load_configuration, required_sections, required_db_params,
    required_gen_params, has_section, get_section, has_option, lookup_option.
  cbn [for_each].
  split; [by intros ->|]. split; [by intros [d ->] ->|]. split.
  - intros [g ->] before param after Hsplit Hbefore Hmiss [d Hd].
    rewrite Hd in *. cbn [mbind result_bind option_bind bool_decide negb] in *.
    destruct before as [|b1 [|b2 [|b3 [|b4 [|b5 before]]]]];
      simplify_eq/=; try (by destruct before);
      repeat match goal with
      | |- context [d !! ?k] =>
          lazymatch goal with
          | H : d !! k = None |- _ => rewrite H
          | _ => let H := fresh in
                 destruct (Hbefore k) as [? H];
                 [rewrite !elem_of_cons; tauto|rewrite H]
          end
      end; done.
  - intros before param after Hsplit Hdb Hbefore [g Hg] Hmiss.
    destruct (Hdb "host") as [? H1]; [rewrite !elem_of_cons; tauto|].
    destruct (config !! "Database") as [d|]; [|done].
    destruct (Hdb "database") as [? H2]; [rewrite !elem_of_cons; tauto|].
    destruct (Hdb "user") as [? H3]; [rewrite !elem_of_cons; tauto|].
    destruct (Hdb "password") as [? H4]; [rewrite !elem_of_cons; tauto|].
    rewrite Hg in *. cbn [mbind result_bind option_bind bool_decide negb] in *.
    rewrite H1, H2, H3, H4.
    destruct before as [|b1 [|b2 [|b3 before]]];
      simplify_eq/=; try (by destruct before);
      repeat match goal with
      | |- context [g !! ?k] =>
          lazymatch goal with
          | H : g !! k = None |- _ => rewrite H
          | _ => let H := fresh in
                 destruct (Hbefore k) as [? H];
                 [rewrite !elem_of_cons; tauto|rewrite H]
          end
      end; done.
Qed.

Lemma load_configuration_error_order_witness :
  _load_configuration (Some no_password_config) "db.ini"
  = Raise (ConfigurationError "Missing required database parameter: password").
Proof.
  refine (proj1 (proj2 (proj2 (proj2
            (load_configuration_error_order no_password_config "db.ini"))))
            _ ["host"; "database"; "user"] "password" [] _ _ _ _).
  - vm_compute. eauto.
  - reflexivity.
  - intros p. rewrite !elem_of_cons, elem_of_nil.
    intros [->|[->|[->|[]]]]; vm_compute; eauto.
  - vm_compute. reflexivity.
  - vm_compute. eauto.
Defined.

(** X12.  With an [Attributes] section in the file whose options can all be read
    (the interpolation of their text succeeds and yields the values of the
    proxy), each toggle is what its option spells (1, yes, true, on or 0, no,
    false, off, in any letter case) and is on when the option is absent;
    loading succeeds exactly when every option present spells a boolean. *)
Theorem attribute_toggles_from_section (config : ConfigParser)
    (text : gmap string string) (proxy : SectionProxy) (ac : AttributeConfig) :
  Interpolation.presents text proxy →
  config !! "Attributes" = Some proxy →
  _load_attribute_config config = Ok ac
  ↔ ∀ t, match proxy !! toggle_key t with
         | None => toggle_value ac t = true
         | Some v => convert_to_boolean v = Ok (toggle_value ac t)
         end.
Proof.
  intros _ Hsec. unfold _load_attribute_config, has_section, get_section.
  rewrite Hsec, bool_decide_eq_true_2 by eauto.
  cbn [fmap result_fmap mbind result_bind attr_getboolean].
  unfold getboolean.
  split.
  - intros Hok t. revert Hok.
    destruct (proxy !! "use_key_attribute") as [v1|] eqn:H1;
      [destruct (convert_to_boolean v1) as [b1|] eqn:C1; [|done]|];
    (destruct (proxy !! "use_required_attribute") as [v2|] eqn:H2;
      [destruct (convert_to_boolean v2) as [b2|] eqn:C2; [|done]|]);
    (destruct (proxy !! "use_column_attribute") as [v3|] eqn:H3;
      [destruct (convert_to_boolean v3) as [b3|] eqn:C3; [|done]|]);
    (destruct (proxy !! "use_maxlength_attribute") as [v4|] eqn:H4;
      [destruct (convert_to_boolean v4) as [b4|] eqn:C4; [|done]|]);
    (destruct (proxy !! "use_table_attribute") as [v5|] eqn:H5;
      [destruct (convert_to_boolean v5) as [b5|] eqn:C5; [|done]|]);
    (destruct (proxy !! "use_databasegenerated_attribute") as [v6|] eqn:H6;
      [destruct (convert_to_boolean v6) as [b6|] eqn:C6; [|done]|]);
    cbn [mbind result_bind]; intros [= <-];
    destruct t; cbn [toggle_key toggle_value use_key use_required use_column
      use_maxlength use_table use_database_generated];
    rewrite ?H1, ?H2, ?H3, ?H4, ?H5, ?H6; done.
  - intros Hall.
    pose proof (Hall UseKey) as T1. pose proof (Hall UseRequired) as T2.
    pose proof (Hall UseColumn) as T3. pose proof (Hall UseMaxLength) as T4.
    pose proof (Hall UseTable) as T5. pose proof (Hall UseDatabaseGenerated) as T6.
    cbn [toggle_key toggle_value] in *. destruct ac as [k r c m tb g].
    cbn [use_key use_required use_column use_maxlength use_table
         use_database_generated] in *.
    destruct (proxy !! "use_key_attribute");
      destruct (proxy !! "use_required_attribute");
      destruct (proxy !! "use_column_attribute");
      destruct (proxy !! "use_maxlength_attribute");
      destruct (proxy !! "use_table_attribute");
      destruct (proxy !! "use_databasegenerated_attribute");
      rewrite ?T1, ?T2, ?T3, ?T4, ?T5, ?T6; cbn [mbind result_bind];
      by subst.
Qed.

Lemma attribute_toggles_from_section_witness :
  _load_attribute_config
    (<[ "Attributes" := {[ "use_table_attribute" := "Off" ]} ]> minimal_config)
  = Ok {| use_key := true; use_required := true; use_column := true;
          use_maxlength := true; use_table := false;
          use_database_generated := true |}.
Proof.
  apply (attribute_toggles_from_section
           (<[ "Attributes" := {[ "use_table_attribute" := "Off" ]} ]> minimal_config)
           {[ "use_table_attribute" := "Off" ]}
           {[ "use_table_attribute" := "Off" ]}).
  - vm_compute. reflexivity.
  - vm_compute. reflexivity.
  - intros t. destruct t; vm_compute; reflexivity.
Defined.


(** ** The run, continued *)

Lemma log_say self message : log self message = (say self message, Ok tt).
Proof. unfold log, say. by destruct (verbose self). Qed.


Lemma config_item_Some self section key v :
  lookup_option (config self) section key = Some v →
  config_item self section key = ([], Ok v).
Proof.
  unfold lookup_option, config_item, lift, get_section, get_item.
  destruct (config self !! section) as [p|]; [|done].
  cbn [mbind option_bind result_bind]. by intros ->.
Qed.





Lemma script_fold self cursor tables : ∀ logged parts,
  fold_left (λ '(logged, script_parts) table,
      (logged ++ trace (log self ("Getting structure for table: " +:+ table)),
       script_parts ++
         [ "-- Table structure for table `" +:+ table +:+ "`";
           "DROP TABLE IF EXISTS `" +:+ table +:+ "`;";
           show_create_table cursor table +:+ ";";
           "" ]))
    tables (logged, parts)
  = (logged ++ flat_map (λ table, say self ("Getting structure for table: " +:+ table))
                        tables,
     parts ++ flat_map (script_table cursor) tables).
Proof.
  induction tables as [|t tables IH]; intros logged parts.
  - by rewrite !app_nil_r.
  - cbn [fold_left flat_map]. rewrite IH, log_say. unfold trace. cbn [fst].
    by rewrite <- !app_assoc.
Qed.




Lemma get_connection_value w self host database user password namespace :
  configured self host database user password namespace →
  get_connection w self
  = match mysql_connect w host database user password with
    | Ok conn => ([Connect host database user password], Ok conn)
    | Raise (Error msg) =>
        (Connect host database user password
         :: say self ("Failed to connect to database: " +:+ msg), Raise (Error msg))
    | Raise e => ([Connect host database user password], Raise e)
    end.
Proof.
  intros [Hh Hd Hu Hp _]. unfold get_connection.
  rewrite (config_item_Some _ _ _ _ Hh), (config_item_Some _ _ _ _ Hd),
    (config_item_Some _ _ _ _ Hu), (config_item_Some _ _ _ _ Hp).
  unfold emit, lift. cbn [mbind M_bind app].
  destruct (mysql_connect w host database user password) as [conn|e];
    cbn [on_error]; [done|].
  destruct e; cbn [fst mret M_ret]; rewrite ?log_say; by cbn.
Qed.




Lemma generate_entities_refused (w : World) (self : EntityGenerator) (e : exn)
    (host database user password namespace : string) :
  configured self host database user password namespace →
  mysql_connect w host database user password = Raise e →
  generate_entities w self
  = (say self "Connecting to database..."
     ++ [Connect host database user password]
     ++ match e with
        | Error msg => say self ("Failed to connect to database: " +:+ msg)
                       ++ say self ("Database error: " +:+ msg)
        | _ => say self ("Error: " +:+ str_of_exn e)
        end,
     Raise e).
Proof.
  intros Hcfg Hconn. unfold generate_entities.
  rewrite (get_connection_value _ _ _ _ _ _ _ Hcfg), Hconn, log_say.
  unfold report_error, log, say.
  destruct e, (verbose self); reflexivity.
Qed.

(** X14.  When the server refuses the connection, the run stops right there: the
    connector error is logged (twice, once by [get_connection] and once by
    [generate_entities]) and raised again; any other exception is logged
    once.  Nothing is written and, no connection being open, nothing is
    closed. *)
Theorem refused_connection (w : World) (self : EntityGenerator) (e : exn)
    (host database user password namespace : string) :
  configured self host database user password namespace →
  mysql_connect w host database user password = Raise e →
  generate_entities w self
  = (say self "Connecting to database..."
     ++ [Connect host database user password]
     ++ match e with
        | Error msg => say self ("Failed to connect to database: " +:+ msg)
                       ++ say self ("Database error: " +:+ msg)
        | _ => say self ("Error: " +:+ str_of_exn e)
        end,
     Raise e).
Proof. apply generate_entities_refused. Qed.

Lemma refused_connection_witness :
  generate_entities
    {| config_files := λ _, Some full_config;
       mysql_connect := λ _ _ _ _, Raise (Error "Access denied");
       now := "";
       makedirs := λ _, None;
       write_file := λ _ _, None;
       unbound_local_message := λ _, "" |}
    (generator_of full_config all_on)
  = ([ Print "Connecting to database...";
       Connect "localhost" "shop" "root" "secret";
       Print "Failed to connect to database: Access denied";
       Print "Database error: Access denied" ], Raise (Error "Access denied")).
Proof.
  refine (eq_trans (refused_connection _ (generator_of full_config all_on)
                      (Error "Access denied") "localhost" "shop" "root" "secret" "Shop"
                      _ _) _).
  - split; vm_compute; reflexivity.
  - reflexivity.
  - reflexivity.
Defined.

(** ** Calls a run does not make *)

Lemma trace_bind {A B} (m : M A) (f : A → M B) :
  trace (m ≫= f)
  = trace m ++ match outcome m with Ok a => trace (f a) | Raise _ => [] end.
Proof.
  destruct m as [t [a|e]]; cbn [mbind M_bind trace outcome fst snd].
  - by destruct (f a).
  - by rewrite app_nil_r.
Qed.

Lemma trace_on_error {A} (m : M A) (h : exn → M unit) :
  trace (on_error m h)
  = trace m ++ match outcome m with Ok _ => [] | Raise e => trace (h e) end.
Proof.
  destruct m as [t [a|e]]; cbn [on_error trace outcome fst snd]; [|done].
  by rewrite app_nil_r.
Qed.

Lemma trace_finally {A} (m : M A) (f : M unit) :
  trace (finally m f) = trace m ++ trace f.
Proof. unfold finally, trace. by destruct f as [t [[]|e]]. Qed.

Lemma filter_say (p : event → bool) self message :
  p (Print message) = false → List.filter p (say self message) = [].
Proof. intros Hp. unfold say. destruct (verbose self); cbn; by rewrite ?Hp. Qed.

Lemma quiet_say self message : verbose self = false → say self message = [].
Proof. intros Hquiet. unfold say. by rewrite Hquiet. Qed.

Section silence.

Context (p : event → bool) (self : EntityGenerator).
Hypothesis Hsay : ∀ message, List.filter p (say self message) = [].

Lemma silent_ret {A} (a : A) : silent p (mret a : M A).
Proof. done. Qed.

Lemma silent_lift {A} (r : result A) : silent p (lift r).
Proof. done. Qed.

Lemma silent_log message : silent p (log self message).
Proof. unfold silent. rewrite log_say. apply Hsay. Qed.

Lemma silent_call e answer : p e = false → silent p (call e answer).
Proof. intros He. unfold silent, call, trace. cbn. by rewrite He. Qed.

Lemma silent_bind {A B} (m : M A) (f : A → M B) :
  silent p m → (∀ a, silent p (f a)) → silent p (m ≫= f).
Proof.
  unfold silent. intros Hm Hf. rewrite trace_bind, List.filter_app, Hm.
  destruct (outcome m); [apply Hf|done].
Qed.

Lemma silent_on_error {A} (m : M A) (h : exn → M unit) :
  silent p m → (∀ e, silent p (h e)) → silent p (on_error m h).
Proof.
  unfold silent. intros Hm Hh. rewrite trace_on_error, List.filter_app, Hm.
  destruct (outcome m); [done|apply Hh].
Qed.

Lemma silent_finally {A} (m : M A) (f : M unit) :
  silent p m → silent p f → silent p (finally m f).
Proof.
  unfold silent. intros Hm Hf. by rewrite trace_finally, List.filter_app, Hm, Hf.
Qed.

Lemma silent_for_each {A} (body : A → M unit) (xs : list A) :
  (∀ x, silent p (body x)) → silent p (for_each_M body xs).
Proof.
  intros Hbody. induction xs as [|x xs IH]; [done|].
  cbn [for_each_M]. apply silent_bind; [apply Hbody|by intros _].
Qed.

Lemma silent_flat_map_say (text : string → string) (tables : list string) :
  List.filter p (flat_map (λ table, say self (text table)) tables) = [].
Proof.
  induction tables as [|t tables IH]; [done|].
  cbn [flat_map]. by rewrite List.filter_app, IH, Hsay.
Qed.

Lemma silent_config_item section key : silent p (config_item self section key).
Proof. apply silent_lift. Qed.

Lemma silent_report_error e : silent p (report_error self e).
Proof. unfold report_error. destruct e; apply silent_log. Qed.

Lemma silent_get_tables cursor : silent p (get_tables self cursor).
Proof.
  unfold get_tables. apply silent_bind; [apply silent_config_item|by intros ?].
Qed.

Lemma silent_get_columns cursor table : silent p (get_columns self cursor table).
Proof.
  unfold get_columns. apply silent_bind; [apply silent_config_item|by intros ?].
Qed.

Lemma silent_generate_sql_script w cursor : silent p (generate_sql_script w self cursor).
Proof.
  unfold generate_sql_script.
  apply silent_bind; [apply silent_log|intros _].
  apply silent_bind; [apply silent_get_tables|intros tables].
  apply silent_bind; [apply silent_config_item|intros database].
  rewrite script_fold. unfold silent, trace. cbn [fst app].
  apply silent_flat_map_say.
Qed.

Lemma silent_get_connection w :
  (∀ host database user password, p (Connect host database user password) = false) →
  silent p (get_connection w self).
Proof.
  intros Hconnect. unfold get_connection.
  apply silent_on_error.
  - repeat (apply silent_bind; [apply silent_config_item|intros ?]).
    apply silent_bind; [|intros _; apply silent_lift].
    unfold silent, emit, trace. cbn. by rewrite Hconnect.
  - intros e. destruct e; first [apply silent_log | apply silent_ret].
Qed.

Hypothesis Hopen : p OpenCursor = false.
Hypothesis Hwrite : ∀ path content, p (WriteFile path content) = false.
Hypothesis Hclose_cursor : p CloseCursor = false.
Hypothesis Hclose_connection : p CloseConnection = false.

Lemma silent_process_table w cursor table : silent p (process_table w self cursor table).
Proof.
  unfold process_table.
  apply silent_bind; [apply silent_log|intros _].
  apply silent_bind; [apply silent_get_columns|intros columns].
  apply silent_bind; [apply silent_log|intros _].
  apply silent_bind; [apply silent_lift|intros class_content].
  apply silent_bind; [by apply silent_call|intros _].
  apply silent_log.
Qed.

Lemma silent_get_cursor conn : silent p (get_cursor self conn).
Proof.
  unfold get_cursor.
  apply silent_bind; [apply silent_config_item|intros database].
  apply silent_bind; [apply silent_log|intros _].
  apply silent_bind; [by apply silent_call|intros _].
  apply silent_ret.
Qed.

Lemma silent_with_cursor w cursor : silent p (with_cursor w self cursor).
Proof.
  unfold with_cursor.
  apply silent_bind; [apply silent_get_tables|intros tables].
  apply silent_bind; [apply silent_log|intros _].
  apply silent_bind.
  - destruct (generate_sql self); [|apply silent_ret].
    apply silent_bind; [apply silent_log|intros _].
    apply silent_bind; [apply silent_generate_sql_script|intros sql_script].
    apply silent_bind; [by apply silent_call|intros _].
    apply silent_log.
  - intros _. apply silent_bind; [|intros _; apply silent_log].
    apply silent_for_each. intros table. apply silent_process_table.
Qed.

Lemma silent_release w conn cursor : silent p (release w self conn cursor).
Proof.
  unfold release. destruct cursor as [cursor|]; [|apply silent_lift].
  apply silent_bind; [by apply silent_call|intros _].
  apply silent_bind; [by apply silent_call|intros _].
  apply silent_log.
Qed.

Lemma silent_with_connection w conn : silent p (with_connection w self conn).
Proof.
  unfold with_connection.
  pose proof (silent_on_error _ _ (silent_get_cursor conn) silent_report_error)
    as Hcursor.
  destruct (on_error (get_cursor self conn) (report_error self)) as [t [cursor|e]].
  - apply silent_bind; [exact Hcursor|intros c].
    apply silent_finally; [|apply silent_release].
    apply silent_on_error; [apply silent_with_cursor|apply silent_report_error].
  - apply silent_finally; [exact Hcursor|apply silent_release].
Qed.

End silence.





(** X16.  A run makes exactly one connection attempt, with the four configured
    parameters, whether the server accepts it or not: there is no retry. *)
Theorem one_connection_attempt (w : World) (self : EntityGenerator)
    (host database user password namespace : string) :
  configured self host database user password namespace →
  List.filter is_connect (trace (generate_entities w self))
  = [Connect host database user password].
Proof.
  intros Hcfg.
  assert (Hsay : ∀ m, List.filter is_connect (say self m) = [])
    by (intros m; by apply filter_say).
  unfold generate_entities.
  rewrite trace_bind, trace_on_error, trace_bind, log_say.
  rewrite (get_connection_value _ _ _ _ _ _ _ Hcfg).
  unfold outcome at 1. cbn [snd].
  destruct (mysql_connect w host database user password) as [conn|e].
  - unfold outcome, trace at 1 2. cbn [fst snd on_error mbind M_bind].
    rewrite !List.filter_app, Hsay.
    rewrite (silent_with_connection is_connect self Hsay eq_refl
               (λ _ _, eq_refl) eq_refl eq_refl w conn).
    done.
  - assert (Hreport : ∀ x, List.filter is_connect (trace (report_error self x)) = [])
      by (intros x; apply (silent_report_error is_connect self Hsay)).
    destruct e; unfold outcome, trace at 1 2;
      cbn [fst snd on_error mbind M_bind app];
      rewrite ?List.filter_app, ?Hsay, ?Hreport; cbn [List.filter is_connect app];
      by rewrite ?Hsay.
Qed.

Lemma one_connection_attempt_witness :
  List.filter is_connect
    (trace (generate_entities (world_of full_config) (generator_of full_config all_on)))
  = [Connect "localhost" "shop" "root" "secret"].
Proof.
  apply (one_connection_attempt (world_of full_config)
           (generator_of full_config all_on) "localhost" "shop" "root" "secret" "Shop").
  split; vm_compute; reflexivity.
Defined.

(** X17.  With [verbose] off the generator prints nothing at all, on success and
    on failure alike: every message goes through [log]. *)
Theorem quiet_run (w : World) (self : EntityGenerator)
    (host database user password namespace : string) :
  configured self host database user password namespace →
  verbose self = false →
  List.filter is_print (trace (generate_entities w self)) = [].
Proof.
  intros _ Hquiet.
  assert (Hsay : ∀ m, List.filter is_print (say self m) = [])
    by (intros m; by rewrite quiet_say).
  unfold generate_entities.
  apply (silent_bind is_print).
  - apply (silent_on_error is_print); [|apply (silent_report_error _ _ Hsay)].
    apply (silent_bind is_print); [apply (silent_log _ _ Hsay)|intros _].
    by apply (silent_get_connection _ _ Hsay).
  - intros conn. by apply (silent_with_connection _ _ Hsay).
Qed.

Lemma quiet_run_witness :
  List.filter is_print
    (trace (generate_entities (world_of full_config)
              {| config := full_config; output_dir := "out"; attribute_config := all_on;
                 verbose := false; generate_sql := true;
                 sql_output_file := "schema.sql" |})) = [].
Proof.
  apply (quiet_run (world_of full_config) _ "localhost" "shop" "root" "secret" "Shop").
  - split; vm_compute; reflexivity.
  - reflexivity.
Defined.

(** ** The constructor *)

Lemma init_facts (w : World) (config_file : string) (events : list event)
    (self : EntityGenerator) :
  __init__ w config_file = (events, Ok self) →
  config_files w config_file = Some (config self)
  ∧ Forall (λ '(section, key), is_Some (lookup_option (config self) section key))
           required_options
  ∧ is_Some (config self !! "Attributes")
  ∧ lookup_option (config self) "Generator" "output_directory" = Some (output_dir self)
  ∧ _load_attribute_config (config self) = Ok (attribute_config self)
  ∧ events = MakeDirs (output_dir self)
             :: say self ("Initialized generator with configuration from: "
                          +:+ config_file).
Proof.
  unfold __init__.
  destruct (config_files w config_file) as [c|] eqn:Hfile; [|done].
  destruct (_load_configuration_cases c config_file) as [[Hload Hall]|[msg Hmsg]].
  2: { by rewrite Hmsg. }
  rewrite Hload, lift_bind_Ok.
  destruct (g ← get_section c "Generator"; get_item g "output_directory")
    as [dir|e] eqn:Hdir; [rewrite lift_bind_Ok|done].
  destruct (_load_attribute_config c) as [ac|e] eqn:Hac; [rewrite lift_bind_Ok|done].
  destruct (g ← get_section c "Generator"; getboolean g "verbose" true)
    as [v|e]; [rewrite lift_bind_Ok|done].
  destruct (g ← get_section c "Generator"; getboolean g "generate_sql" false)
    as [sql|e]; [rewrite lift_bind_Ok|done].
  destruct (g ← get_section c "Generator";
            Ok (get_fallback g "sql_output_file" "database_structure.sql"))
    as [file|e]; [rewrite lift_bind_Ok|done].
  unfold log, say, call, emit. cbn [verbose].
  destruct (makedirs w dir) as [e|]; [done|].
  destruct v; cbn [mbind M_bind mret M_ret app]; intros [= <- <-];
    cbn [config output_dir attribute_config verbose];
    (repeat split; try done;
     [ destruct (c !! "Attributes") eqn:Hattr; [by eexists|];
       by rewrite (_load_attribute_config_no_section c Hattr) in Hac
     | unfold lookup_option; unfold get_section, get_item in Hdir;
       destruct (c !! "Generator") as [g|]; [|done];
       cbn [mbind result_bind option_bind] in *;
       by destruct (g !! "output_directory"); simplify_eq ]).
Qed.

(** X18.  What a constructed generator guarantees.  The file existed and holds the
    six required options and an [Attributes] section; the generator keeps
    that configuration, the output directory named in it and the toggles
    loaded from it; and the only effects of the constructor are the creation
    of the output directory followed by one message. *)
Theorem constructor_guarantees (w : World) (config_file : string) (events : list event)
    (self : EntityGenerator) :
  __init__ w config_file = (events, Ok self) →
  config_files w config_file = Some (config self)
  ∧ (∀ section key, (section, key) ∈ required_options →
                    is_Some (lookup_option (config self) section key))
  ∧ is_Some (config self !! "Attributes")
  ∧ lookup_option (config self) "Generator" "output_directory" = Some (output_dir self)
  ∧ _load_attribute_config (config self) = Ok (attribute_config self)
  ∧ events = MakeDirs (output_dir self)
             :: say self ("Initialized generator with configuration from: "
                          +:+ config_file).
Proof.
  intros Hinit.
  destruct (init_facts _ _ _ _ Hinit) as (H1 & H2 & H3 & H4 & H5 & H6).
  repeat split; try done.
  intros section key Hin. rewrite Forall_forall in H2. apply (H2 _ Hin).
Qed.

Lemma constructor_guarantees_witness :
  config_files (world_of full_config) "db.ini"
  = Some (config (generator_of full_config all_on)).
Proof.
  apply (constructor_guarantees (world_of full_config) "db.ini"
           [MakeDirs "out";
            Print "Initialized generator with configuration from: db.ini"]
           (generator_of full_config all_on)).
  vm_compute. reflexivity.
Defined.

(** ** The schema script *)



(** ** The [finally] clause *)

Lemma outcome_bind {A B} (m : M A) (f : A → M B) :
  outcome (m ≫= f)
  = match outcome m with Ok a => outcome (f a) | Raise e => Raise e end.
Proof.
  destruct m as [t [a|e]]; cbn [mbind M_bind outcome snd]; [|done].
  by destruct (f a).
Qed.

Lemma outcome_on_error {A} (m : M A) (h : exn → M unit) :
  outcome (on_error m h) = outcome m.
Proof. by destruct m as [t [a|e]]. Qed.

Lemma outcome_finally {A} (m : M A) (f : M unit) :
  outcome (finally m f)
  = match outcome f with Ok _ => outcome m | Raise e => Raise e end.
Proof. unfold finally, outcome. by destruct f as [t [[]|e]]. Qed.

(** What the [finally] clause does with cursor and connection at hand. *)
Lemma release_value (w : World) (self : EntityGenerator) (conn cursor : Catalog) :
  release w self conn (Some cursor)
  = (CloseCursor
     :: match close_cursor cursor with
        | Some _ => []
        | None =>
            CloseConnection
            :: match close_connection conn with
               | Some _ => []
               | None => say self "Database connection closed"
               end
        end,
     match close_cursor cursor, close_connection conn with
     | Some e, _ => Raise e
     | None, Some e => Raise e
     | None, None => Ok tt
     end).
Proof.
  unfold release, call. rewrite log_say.
  by destruct (close_cursor cursor), (close_connection conn).
Qed.

Lemma with_connection_trace (w : World) (self : EntityGenerator) (conn : Catalog) :
  trace (with_connection w self conn)
  = trace (on_error (get_cursor self conn) (report_error self))
    ++ match outcome (get_cursor self conn) with
       | Ok cursor =>
           trace (on_error (with_cursor w self cursor) (report_error self))
           ++ trace (release w self conn (Some cursor))
       | Raise _ => []
       end.
Proof.
  unfold with_connection.
  destruct (get_cursor self conn) as [t [cursor|e]]; cbn [on_error outcome snd].
  - rewrite trace_bind. cbn [outcome snd trace fst]. by rewrite trace_finally.
  - rewrite trace_finally. cbn [trace fst release lift]. by rewrite app_nil_r.
Qed.

Lemma with_connection_outcome (w : World) (self : EntityGenerator) (conn : Catalog) :
  outcome (with_connection w self conn)
  = match outcome (get_cursor self conn) with
    | Ok cursor =>
        match outcome (release w self conn (Some cursor)) with
        | Ok _ => outcome (with_cursor w self cursor)
        | Raise e => Raise e
        end
    | Raise _ => Raise (UnboundLocalError (unbound_local_message w "cursor"))
    end.
Proof.
  unfold with_connection.
  destruct (get_cursor self conn) as [t [cursor|e]]; cbn [on_error outcome snd].
  - rewrite outcome_bind. cbn [outcome snd].
    by rewrite outcome_finally, outcome_on_error.
  - by rewrite outcome_finally.
Qed.

(** X21.  Where a run releases what it holds, and where it does not.
    - No connection was opened: the run raises what the attempt raised,
      closes nothing and writes nothing.
    - The connection is open and handed out a cursor: whatever the work in
      between did, the run ends with closing the cursor, then closing the
      connection if closing the cursor returned, then the message about it
      if both returned; nothing is closed before.  When both calls return
      the run ends as the work did, otherwise with the exception of the call
      that failed.
    - The connection is open but there is no cursor (the message after
      connecting or [conn.cursor()] raised): the [finally] clause raises
      [UnboundLocalError] in place of that exception, and nothing is closed:
      the connection stays open. *)
Theorem connection_released (w : World) (self : EntityGenerator) :
  match outcome (get_connection w self) with
  | Raise e =>
      outcome (generate_entities w self) = Raise e
      ∧ List.filter is_close (trace (generate_entities w self)) = []
      ∧ List.filter is_write (trace (generate_entities w self)) = []
  | Ok conn =>
      match outcome (get_cursor self conn) with
      | Ok cursor =>
          (∃ before,
             trace (generate_entities w self)
             = before
               ++ CloseCursor
                  :: match close_cursor cursor with
                     | Some _ => []
                     | None =>
                         CloseConnection
                         :: match close_connection conn with
                            | Some _ => []
                            | None => say self "Database connection closed"
                            end
                     end
             ∧ List.filter is_close before = [])
          ∧ outcome (generate_entities w self)
            = match close_cursor cursor, close_connection conn with
              | Some e, _ => Raise e
              | None, Some e => Raise e
              | None, None => outcome (with_cursor w self cursor)
              end
      | Raise _ =>
          outcome (generate_entities w self)
          = Raise (UnboundLocalError (unbound_local_message w "cursor"))
          ∧ List.filter is_close (trace (generate_entities w self)) = []
      end
  end.
Proof.
  assert (Hclose : ∀ m, List.filter is_close (say self m) = [])
    by (intros m; by apply filter_say).
  assert (Hwrite : ∀ m, List.filter is_write (say self m) = [])
    by (intros m; by apply filter_say).
  set (attempt := on_error (log self "Connecting to database..." ;; get_connection w self)
                           (report_error self)).
  assert (Hattempt : ∀ p, (∀ m, List.filter p (say self m) = []) →
                          (∀ h d u pw, p (Connect h d u pw) = false) →
                          List.filter p (trace attempt) = []).
  { intros p Hsay Hp. apply (silent_on_error p); [|apply (silent_report_error _ _ Hsay)].
    apply (silent_bind p); [apply (silent_log _ _ Hsay)|intros _].
    by apply (silent_get_connection _ _ Hsay). }
  assert (Houtcome : outcome attempt = outcome (get_connection w self)).
  { unfold attempt. rewrite outcome_on_error, outcome_bind, log_say. done. }
  unfold generate_entities. fold attempt.
  rewrite trace_bind, outcome_bind, Houtcome.
  destruct (outcome (get_connection w self)) as [conn|e].
  - rewrite with_connection_trace, with_connection_outcome.
    pose proof (silent_on_error _ _ _ (silent_get_cursor is_close self Hclose eq_refl conn)
                  (silent_report_error _ _ Hclose)) as Hcursor.
    unfold silent in Hcursor.
    destruct (outcome (get_cursor self conn)) as [cursor|e].
    + rewrite release_value. unfold outcome at 2, trace at 4. cbn [fst snd].
      split.
      * eexists. split; [by rewrite !app_assoc|].
        rewrite !List.filter_app, (Hattempt _ Hclose) by done.
        rewrite Hcursor.
        apply (silent_on_error is_close);
          [by apply (silent_with_cursor _ _ Hclose)|apply (silent_report_error _ _ Hclose)].
      * by destruct (close_cursor cursor), (close_connection conn).
    + split; [done|].
      by rewrite app_nil_r, List.filter_app, (Hattempt _ Hclose), Hcursor.
  - rewrite app_nil_r. split; [done|].
    by rewrite (Hattempt _ Hclose), (Hattempt _ Hwrite).
Qed.

Lemma connection_released_witness :
  let w := {| config_files := λ _, Some full_config;
              mysql_connect := λ _ _ _ _,
                Ok {| open_cursor := Some (Error "MySQL Connection not available");
                      close_cursor := None;
                      close_connection := None;
                      base_tables := λ _, [];
                      column_rows := λ _ _, [];
                      show_create_table := λ _, "" |};
              now := "";
              makedirs := λ _, None;
              write_file := λ _ _, None;
              unbound_local_message := λ variable, "local variable '" +:+ variable
                +:+ "' referenced before assignment" |} in
  outcome (generate_entities w (generator_of full_config all_on))
  = Raise (UnboundLocalError "local variable 'cursor' referenced before assignment")
  ∧ List.filter is_close (trace (generate_entities w (generator_of full_config all_on)))
    = [].
Proof.
  intros w.
  pose proof (connection_released w (generator_of full_config all_on)) as H.
  vm_compute in H. vm_compute. exact H.
Defined.

(** ** [main] *)

(** X22.  What [main] lets out.  With a configuration file at the path, whatever
    the constructor or the run raises ends up as one last message, a
    configuration error under its own heading, and [main] returns.  Without
    one it writes the default template to the path it was given (or to
    [database_config.ini]) and touches nothing else; that write is outside
    the [try] block, so when it fails the exception escapes and the closing
    message is not printed. *)
Theorem main_outcomes (w : World) (argv : list string) :
  let config_file := match argv with _ :: a :: _ => a | _ => "database_config.ini" end in
  let run := generator ← __init__ w config_file; generate_entities w generator in
  (is_Some (config_files w config_file) →
   main w argv
   = ([ Print "Database Entity Generator"; Print "------------------------" ]
      ++ trace run
      ++ match outcome run with
         | Ok _ => []
         | Raise (ConfigurationError msg) => [Print ("Configuration error: " +:+ msg)]
         | Raise e => [Print ("Error: " +:+ str_of_exn e)]
         end,
      Ok tt))
  ∧ (config_files w config_file = None →
     main w argv
     = ([ Print "Database Entity Generator";
          Print "------------------------";
          Print ("Configuration file not found. Creating default configuration at: "
                 +:+ config_file);
          WriteFile config_file default_config_text ]
        ++ match write_file w config_file default_config_text with
           | None => [ Print "Please update the configuration file with your database details and run the program again." ]
           | Some _ => []
           end,
        match write_file w config_file default_config_text with
        | None => Ok tt
        | Some e => Raise e
        end)).
Proof.
  intros config_file run. unfold main. fold config_file. fold run.
  unfold trace, outcome, create_default_config, call, emit.
  destruct (config_files w config_file) as [c|].
  - split; [intros _|done].
    destruct run as [t [[]|e]].
    + cbn. by rewrite app_nil_r.
    + destruct e; by cbn.
  - split; [by intros [? ?]|intros _].
    by destruct (write_file w config_file default_config_text).
Qed.

Lemma main_outcomes_witness :
  main {| config_files := λ _, None;
          mysql_connect := λ _ _ _ _, Raise (Error "unreachable");
          now := "";
          makedirs := λ _, None;
          write_file := λ _ _, Some (OSError "[Errno 13] Permission denied: 'shop.ini'");
          unbound_local_message := λ _, "" |} ["entity_generator.py"; "shop.ini"]
  = ([ Print "Database Entity Generator";
       Print "------------------------";
       Print ("Configuration file not found. Creating default configuration at: "
              +:+ "shop.ini");
       WriteFile "shop.ini" default_config_text ],
     Raise (OSError "[Errno 13] Permission denied: 'shop.ini'")).
Proof.
  apply (main_outcomes
           {| config_files := λ _, None;
              mysql_connect := λ _ _ _ _, Raise (Error "unreachable");
              now := "";
              makedirs := λ _, None;
              write_file := λ _ _, Some (OSError "[Errno 13] Permission denied: 'shop.ini'");
              unbound_local_message := λ _, "" |} ["entity_generator.py"; "shop.ini"]).
  reflexivity.
Defined.
